(** * Stock portfolio tracker

    A shallow embedding of [Portfolio_tracker.py] and the properties of its
    portfolio operations.

    The program keeps one JSON-shaped document in memory,

      {"stocks": {SYMBOL: {"quantity": int, "purchase_price": number}},
       "total_balance": number}

    asks a market-data service for closing prices, prints to the terminal
    and rewrites [portfolio.json] after each change.  The embedding keeps
    these effects explicit: every function of the program is a computation
    over a [World] (price feed, terminal, disk) that either returns or
    raises a Python exception. *)

From Stdlib Require Import ZArith List String Ascii Floats Bool Lia.
Import ListNotations.

Set Implicit Arguments.

Local Open Scope string_scope.
Local Open Scope list_scope.

(** ** Numbers

    Quantities are Python integers ([Z]).  Prices and balances are binary64
    floating-point numbers, for which Rocq's primitive [float] is used.  Two
    Python types carry them at run time and differ in two operations the
    program uses:

    - [float], which is what [json.load] and the literal [0.0] produce:
      division by zero raises [ZeroDivisionError], and [round(x, 2)] is the
      correctly rounded decimal rounding of the exact value;
    - [numpy.float64], which is what [Series.iloc[-1]] hands back from the
      price history: division follows IEEE 754 (infinity or NaN), and
      [round(x, 2)] is [rint(x * 100) / 100].

    An arithmetic operation with a [numpy.float64] operand yields a
    [numpy.float64]. *)

Module Num.

Local Open Scope float_scope.

Inductive number : Type :=
| PyFloat (x : float)      (* builtin float *)
| NpFloat (x : float).     (* numpy.float64 *)

Definition value (n : number) : float :=
  match n with PyFloat x | NpFloat x => x end.

Definition is_numpy (n : number) : bool :=
  match n with PyFloat _ => false | NpFloat _ => true end.

(** The type of the result of a binary operation. *)
Definition result_of (a b : number) (x : float) : number :=
  if is_numpy a || is_numpy b then NpFloat x else PyFloat x.

(** [bool(x)]: a number is falsy exactly when it compares equal to zero
    (so both zeros are falsy and NaN is truthy). *)
Definition truthy (n : number) : bool := negb (value n =? 0).

(** Conversion of an integer operand to binary64, rounding to nearest
    even; [None] stands for [OverflowError] (the integer is beyond the
    range of the format). *)
Definition float_of_int (q : Z) : option float :=
  match binary_normalize prec emax q 0 false with
  | S754_infinity _ => None
  | sf => Some (SF2Prim sf)
  end.

(** [a / d] rounded to the nearest integer, ties to even ([0 < d]). *)
Definition div_half_even (a d : Z) : Z :=
  let q := (a / d)%Z in
  match (2 * (a mod d) ?= d)%Z with
  | Lt => q
  | Gt => (q + 1)%Z
  | Eq => if Z.even q then q else (q + 1)%Z
  end.

Definition signed (s : bool) (n : Z) : Z := if s then (- n)%Z else n.

(** [numpy.rint]: the nearest integral value, ties to even, keeping the
    sign of a zero result. *)
Definition rint (x : float) : float :=
  match Prim2SF x with
  | S754_finite s m e =>
      if (0 <=? e)%Z then x
      else
        let n := div_half_even (Zpos m) (2 ^ (- e)) in
        SF2Prim (binary_normalize prec emax (signed s n) 0 s)
  | _ => x
  end.

(** [round(x, 2)] of a [numpy.float64]. *)
Definition np_round2 (x : float) : float := rint (x * 100) / 100.

(** [round(x, 2)] of a builtin [float]: the exact value is rounded to two
    decimals (ties to even) and the nearest binary64 number to that
    decimal is returned.  Values with no fractional bits, infinities and
    NaN are returned as they are. *)
Definition py_round2 (x : float) : float :=
  match Prim2SF x with
  | S754_finite s m e =>
      if (0 <=? e)%Z then x
      else
        match div_half_even (Zpos m * 100) (2 ^ (- e)) with
        | Zpos n =>
            SF2Prim (SFdiv prec emax (S754_finite s n 0)
                                     (S754_finite false 100 0))
        | _ => SF2Prim (S754_zero s)
        end
  | _ => x
  end.

(** [round(n, 2)], dispatched on the run-time type. *)
Definition round2 (n : number) : number :=
  match n with
  | PyFloat x => PyFloat (py_round2 x)
  | NpFloat x => NpFloat (np_round2 x)
  end.

Definition add (a b : number) : number :=
  result_of a b (value a + value b).

Definition sub (a b : number) : number :=
  result_of a b (value a - value b).

(** [n * 100] with the integer literal [100]. *)
Definition times100 (n : number) : number :=
  result_of n n (value n * 100).

(** [q * n] for an integer [q]; [None] is [OverflowError]. *)
Definition int_mul (q : Z) (n : number) : option number :=
  match float_of_int q with
  | None => None
  | Some x => Some (result_of n n (x * value n))
  end.

(** [n * q] for an integer [q]. *)
Definition mul_int (n : number) (q : Z) : option number :=
  match float_of_int q with
  | None => None
  | Some x => Some (result_of n n (value n * x))
  end.

(** [a / b]; [None] is [ZeroDivisionError], which only the division of
    two builtin floats raises. *)
Definition div (a b : number) : option number :=
  if negb (is_numpy a || is_numpy b) && (value b =? 0)
  then None
  else Some (result_of a b (value a / value b)).

End Num.

Import Num.

(** ** Strings

    Symbols and answers typed at the terminal are strings of 8-bit
    characters; the case conversions and [strip] act on the ASCII range. *)

Module Str.

Local Open Scope string_scope.

Definition code (c : ascii) : nat := nat_of_ascii c.

Definition upper_char (c : ascii) : ascii :=
  if ((97 <=? code c) && (code c <=? 122))%nat then ascii_of_nat (code c - 32) else c.

Definition lower_char (c : ascii) : ascii :=
  if ((65 <=? code c) && (code c <=? 90))%nat then ascii_of_nat (code c + 32) else c.

Fixpoint map_string (f : ascii -> ascii) (s : string) : string :=
  match s with
  | EmptyString => EmptyString
  | String c s' => String (f c) (map_string f s')
  end.

(** [s.upper()] and [s.lower()]. *)
Definition upper : string -> string := map_string upper_char.
Definition lower : string -> string := map_string lower_char.

(** ASCII whitespace as [str.isspace] has it: tab to carriage return,
    the four separators and the space. *)
Definition is_space (c : ascii) : bool :=
  (((9 <=? code c) && (code c <=? 13)) ||
   ((28 <=? code c) && (code c <=? 32)))%nat.

Fixpoint lstrip (s : string) : string :=
  match s with
  | EmptyString => EmptyString
  | String c s' => if is_space c then lstrip s' else s
  end.

Fixpoint rstrip (s : string) : string :=
  match s with
  | EmptyString => EmptyString
  | String c s' =>
      match rstrip s' with
      | EmptyString => if is_space c then EmptyString else String c EmptyString
      | r => String c r
      end
  end.

(** [s.strip()]. *)
Definition strip (s : string) : string := rstrip (lstrip s).

Definition digit_of (c : ascii) : option Z :=
  if ((48 <=? code c) && (code c <=? 57))%nat
  then Some (Z.of_nat (code c - 48)) else None.

(** Decimal digits, where single underscores may separate digits;
    [seen] tells whether the previous character was a digit. *)
Fixpoint digits (acc : Z) (seen : bool) (s : string) : option Z :=
  match s with
  | EmptyString => if seen then Some acc else None
  | String c s' =>
      match digit_of c with
      | Some d => digits (10 * acc + d)%Z true s'
      | None =>
          if Ascii.eqb c "_" && seen then digits acc false s' else None
      end
  end.

(** [int(s)]; [None] is [ValueError]. *)
Definition int_of_string (s : string) : option Z :=
  match strip s with
  | String "-" r => option_map Z.opp (digits 0%Z false r)
  | String "+" r => digits 0%Z false r
  | t => digits 0%Z false t
  end.

End Str.

Import Str.

(** ** Dictionaries

    A Python [dict] iterates in insertion order, and the order decides the
    order of the price requests, of the displayed rows and of the floating
    point additions of the balance: it is an association list with one
    entry per key. *)

Module Dict.

Section Operations.
Variable V : Type.

Definition dict : Type := list (string * V).

Definition keys (d : dict) : list string := map fst d.

(** [d.get(k)] *)
Fixpoint get (k : string) (d : dict) : option V :=
  match d with
  | [] => None
  | (k', v) :: d' => if String.eqb k k' then Some v else get k d'
  end.

(** [k in d] *)
Definition mem (k : string) (d : dict) : bool :=
  match get k d with Some _ => true | None => false end.

(** [d[k] = v]: an existing key keeps its place, a new key goes last. *)
Fixpoint set (k : string) (v : V) (d : dict) : dict :=
  match d with
  | [] => [(k, v)]
  | (k', v') :: d' =>
      if String.eqb k k' then (k', v) :: d' else (k', v') :: set k v d'
  end.

(** [del d[k]] for a key of [d]. *)
Fixpoint del (k : string) (d : dict) : dict :=
  match d with
  | [] => []
  | (k', v') :: d' =>
      if String.eqb k k' then d' else (k', v') :: del k d'
  end.

(** The invariant of a dictionary: no key occurs twice. *)
Definition wf (d : dict) : Prop := NoDup (keys d).
End Operations.

End Dict.

Import Dict.

(** ** The portfolio document *)

(** One entry of [portfolio["stocks"]]. *)
Record Holding : Type := mkHolding {
  quantity : Z;
  purchase_price : number
}.

Record Portfolio : Type := mkPortfolio {
  stocks : dict Holding;
  total_balance : number
}.

(** One dictionary appended to [data] in [view_portfolio]; the fields are
    the columns of the table and of the exported file. *)
Record Row : Type := mkRow {
  Stock : string;
  Quantity : Z;
  Purchase_Price : number;
  Current_Price : number;
  Current_Value : number;
  Profit_Loss : number;
  Profit_Loss_pct : number
}.

(** What [json.dump] writes: the same tree with plain JSON numbers. *)
Record Document : Type := mkDocument {
  doc_stocks : list (string * (Z * float));
  doc_total_balance : float
}.

Definition json_dump (p : Portfolio) : Document :=
  {| doc_stocks :=
       map (fun kv => (fst kv, (quantity (snd kv), value (purchase_price (snd kv)))))
           (stocks p);
     doc_total_balance := value (total_balance p) |}.

(** What [json.load] builds: every JSON real becomes a builtin [float]. *)
Definition json_load (d : Document) : Portfolio :=
  {| stocks :=
       map (fun kv => (fst kv, {| quantity := fst (snd kv);
                                  purchase_price := PyFloat (snd (snd kv)) |}))
           (doc_stocks d);
     total_balance := PyFloat (doc_total_balance d) |}.

(** ** The world the program runs in *)

(** Lines printed by the program, with the values they interpolate. *)
Inductive message : Type :=
| ErrorFetching (symbol : string)       (* Error fetching data for ...: ... *)
| FailedToFetch (symbol : string)       (* Failed to fetch data for ... Stock not added. *)
| AlreadyExists (symbol : string)       (* ... already exists in your portfolio. Updating quantity. *)
| Added (quantity : Z) (symbol : string) (price : number)
| Removed (symbol : string)             (* Removed ... from your portfolio. *)
| NotInPortfolio (symbol : string)      (* ... is not in your portfolio. *)
| PortfolioEmpty                        (* Your portfolio is empty. *)
| FetchingData                          (* Fetching real-time stock data... *)
| PerformanceHeading                    (* Portfolio Performance: *)
| Table (data : list Row)               (* print(df) *)
| TotalValue (total : number)           (* Total Portfolio Value: $... *)
| Exported                              (* Portfolio exported to 'portfolio_performance.csv'. *)
| Menu                                  (* the title and the four options *)
| InvalidInput                          (* Invalid input. Please try again. *)
| Goodbye                               (* Exiting the tracker. Goodbye! *)
| InvalidChoice.                        (* Invalid choice. Please select a valid option. *)

Inductive file : Type :=
| JsonFile (d : Document)
| CsvFile (data : list Row).

(** Everything observable from outside, in the order it happens. *)
Inductive event : Type :=
| Print (m : message)
| Ask (prompt : string)                 (* the prompt of [input] *)
| Request (symbol : string)             (* a price request to the service *)
| Write (path : string) (content : file).

Inductive exn : Type :=
| OverflowError          (* int too large to convert to float *)
| ZeroDivisionError
| EOFError               (* [input] at the end of the input *)
| JSONDecodeError.       (* the portfolio file does not hold JSON *)

Record World : Type := mkWorld {
  (** The [portfolio] dictionary that [main] creates and passes, by
      reference, to every operation. *)
  memory : Portfolio;
  (** The market-data service: the answer to the [n]-th request made,
      [None] when anything fails ([fetch_stock_data] catches it). *)
  market : nat -> string -> option number;
  requests : nat;
  (** The lines the user will type. *)
  stdin : list string;
  trace : list event;
  disk : dict file
}.

Definition PORTFOLIO_FILE : string := "portfolio.json".
Definition EXPORT_FILE : string := "portfolio_performance.csv".

(** ** Computations *)

Inductive result (A : Type) : Type :=
| Ok (a : A)
| Raise (e : exn).

Arguments Ok {A} a.
Arguments Raise {A} e.

Definition M (A : Type) : Type := World -> result A * World.

Definition ret {A} (a : A) : M A := fun w => (Ok a, w).

Definition bind {A B} (m : M A) (k : A -> M B) : M B :=
  fun w =>
    match m w with
    | (Ok a, w') => k a w'
    | (Raise e, w') => (Raise e, w')
    end.

Definition raise {A} (e : exn) : M A := fun w => (Raise e, w).

Declare Scope prog_scope.
Delimit Scope prog_scope with prog.
Bind Scope prog_scope with M.

Notation "x <- m ;; k" := (bind m (fun x => k))
  (at level 61, m at next level, right associativity) : prog_scope.
Notation "m ;; k" := (bind m (fun _ => k))
  (at level 61, right associativity) : prog_scope.

Local Open Scope prog_scope.

Definition emit (e : event) : M unit :=
  fun w => (Ok tt, {| memory := memory w; market := market w;
                      requests := requests w; stdin := stdin w;
                      trace := trace w ++ [e]; disk := disk w |}).

Definition print (m : message) : M unit := emit (Print m).

(** [input(prompt)] *)
Definition input (prompt : string) : M string :=
  emit (Ask prompt) ;;
  fun w =>
    match stdin w with
    | [] => (Raise EOFError, w)
    | line :: rest =>
        (Ok line, {| memory := memory w; market := market w;
                     requests := requests w; stdin := rest;
                     trace := trace w; disk := disk w |})
    end.

(** One request to the market-data service. *)
Definition request (symbol : string) : M (option number) :=
  emit (Request symbol) ;;
  fun w =>
    (Ok (market w (requests w) symbol),
     {| memory := memory w; market := market w;
        requests := S (requests w); stdin := stdin w;
        trace := trace w; disk := disk w |}).

Definition read_portfolio : M Portfolio := fun w => (Ok (memory w), w).

Definition write_portfolio (p : Portfolio) : M unit :=
  fun w => (Ok tt, {| memory := p; market := market w;
                      requests := requests w; stdin := stdin w;
                      trace := trace w; disk := disk w |}).

Definition read_file (path : string) : M (option file) :=
  fun w => (Ok (get path (disk w)), w).

(** Opening [path] for writing and filling it with [content]. *)
Definition write_file (path : string) (content : file) : M unit :=
  emit (Write path content) ;;
  fun w => (Ok tt, {| memory := memory w; market := market w;
                      requests := requests w; stdin := stdin w;
                      trace := trace w; disk := set path content (disk w) |}).

(** Lifting of an arithmetic operation that may raise. *)
Definition or_raise {A} (o : option A) (e : exn) : M A :=
  match o with
  | Some a => ret a
  | None => raise e
  end.

(** ** The program *)

(** [load_portfolio()] *)
Definition load_portfolio : M Portfolio :=
  f <- read_file PORTFOLIO_FILE ;;
  match f with
  | Some (JsonFile d) => ret (json_load d)
  | Some (CsvFile _) => raise JSONDecodeError
  | None => ret {| stocks := []; total_balance := PyFloat 0 |}
  end.

(** [save_portfolio(portfolio)] *)
Definition save_portfolio : M unit :=
  portfolio <- read_portfolio ;;
  write_file PORTFOLIO_FILE (JsonFile (json_dump portfolio)).

(** [fetch_stock_data(stock_symbol)] *)
Definition fetch_stock_data (stock_symbol : string) : M (option number) :=
  current_price <- request stock_symbol ;;
  match current_price with
  | Some p => ret (Some p)
  | None => print (ErrorFetching stock_symbol) ;; ret None
  end.

(** The price when [if current_price:] takes the branch. *)
Definition if_truthy (current_price : option number) : option number :=
  match current_price with
  | Some p => if truthy p then Some p else None
  | None => None
  end.

(** The loop of [update_total_balance] over [portfolio["stocks"].items()]. *)
Fixpoint sum_values (items : dict Holding) (total_balance : number) : M number :=
  match items with
  | [] => ret total_balance
  | (stock, details) :: items' =>
      current_price <- fetch_stock_data stock ;;
      match if_truthy current_price with
      | Some p =>
          v <- or_raise (int_mul (quantity details) p) OverflowError ;;
          sum_values items' (add total_balance v)
      | None => sum_values items' total_balance
      end
  end.

(** [update_total_balance(portfolio)] *)
Definition update_total_balance : M unit :=
  portfolio <- read_portfolio ;;
  total <- sum_values (stocks portfolio) (PyFloat 0) ;;
  portfolio <- read_portfolio ;;
  write_portfolio {| stocks := stocks portfolio;
                     total_balance := round2 total |}.

(** [details['quantity'] += n] *)
Definition increase (details : Holding) (n : Z) : Holding :=
  {| quantity := (quantity details + n)%Z;
     purchase_price := purchase_price details |}.

(** [add_stock(portfolio, symbol, quantity)] *)
Definition add_stock (symbol : string) (quantity : Z) : M unit :=
  let symbol := upper symbol in
  current_price <- fetch_stock_data symbol ;;
  match if_truthy current_price with
  | None => print (FailedToFetch symbol)
  | Some price =>
      portfolio <- read_portfolio ;;
      match get symbol (stocks portfolio) with
      | Some details =>
          print (AlreadyExists symbol) ;;
          write_portfolio
            {| stocks := set symbol (increase details quantity) (stocks portfolio);
               total_balance := total_balance portfolio |}
      | None =>
          write_portfolio
            {| stocks := set symbol
                           {| quantity := quantity; purchase_price := price |}
                           (stocks portfolio);
               total_balance := total_balance portfolio |}
      end ;;
      print (Added quantity symbol (round2 price)) ;;
      update_total_balance ;;
      save_portfolio
  end.

(** [remove_stock(portfolio, symbol)] *)
Definition remove_stock (symbol : string) : M unit :=
  let symbol := upper symbol in
  portfolio <- read_portfolio ;;
  if mem symbol (stocks portfolio) then
    write_portfolio {| stocks := del symbol (stocks portfolio);
                       total_balance := total_balance portfolio |} ;;
    print (Removed symbol) ;;
    update_total_balance ;;
    save_portfolio
  else
    print (NotInPortfolio symbol).

(** The loop of [view_portfolio]: one row per holding whose price is
    available, appended to [data]. *)
Fixpoint valuation_rows (items : dict Holding) (data : list Row) : M (list Row) :=
  match items with
  | [] => ret data
  | (stock, details) :: items' =>
      let quantity := quantity details in
      let purchase_price := purchase_price details in
      current_price <- fetch_stock_data stock ;;
      match if_truthy current_price with
      | None => valuation_rows items' data
      | Some current_price =>
          current_value <- or_raise (int_mul quantity current_price) OverflowError ;;
          profit_loss <-
            or_raise (mul_int (sub current_price purchase_price) quantity)
                     OverflowError ;;
          ratio <-
            or_raise (div (sub current_price purchase_price) purchase_price)
                     ZeroDivisionError ;;
          let profit_loss_percentage := times100 ratio in
          valuation_rows items'
            (data ++ [ {| Stock := stock;
                          Quantity := quantity;
                          Purchase_Price := round2 purchase_price;
                          Current_Price := round2 current_price;
                          Current_Value := round2 current_value;
                          Profit_Loss := round2 profit_loss;
                          Profit_Loss_pct := round2 profit_loss_percentage |} ])
      end
  end.

Definition EXPORT_PROMPT : string :=
  "Do you want to export the portfolio to a CSV file? (yes/no): ".

(** [view_portfolio(portfolio)] *)
Definition view_portfolio : M unit :=
  portfolio <- read_portfolio ;;
  match stocks portfolio with
  | [] => print PortfolioEmpty
  | _ :: _ =>
      print FetchingData ;;
      data <- valuation_rows (stocks portfolio) [] ;;
      print PerformanceHeading ;;
      print (Table data) ;;
      portfolio <- read_portfolio ;;
      print (TotalValue (round2 (total_balance portfolio))) ;;
      export <- input EXPORT_PROMPT ;;
      if String.eqb (lower (strip export)) "yes" then
        write_file EXPORT_FILE (CsvFile data) ;;
        print Exported
      else ret tt
  end.

(** One pass of the [while True] loop of [main]; [false] when the loop
    is left. *)
Definition menu_pass : M bool :=
  print Menu ;;
  choice <- input "Choose an option: " ;;
  let choice := strip choice in
  if String.eqb choice "1" then
    symbol <- input "Enter the stock symbol (e.g., AAPL, MSFT): " ;;
    let symbol := upper (strip symbol) in
    text <- input "Enter the quantity: " ;;
    match int_of_string text with
    | Some quantity => add_stock symbol quantity ;; ret true
    | None => print InvalidInput ;; ret true
    end
  else if String.eqb choice "2" then
    symbol <- input "Enter the stock symbol to remove: " ;;
    let symbol := upper (strip symbol) in
    remove_stock symbol ;; ret true
  else if String.eqb choice "3" then
    view_portfolio ;; ret true
  else if String.eqb choice "4" then
    print Goodbye ;; ret false
  else
    print InvalidChoice ;; ret true.

(** The loop, for at most [fuel] passes; [None] when they did not suffice. *)
Fixpoint main_loop (fuel : nat) : M (option unit) :=
  match fuel with
  | O => ret None
  | S fuel' =>
      again <- menu_pass ;;
      if again then main_loop fuel' else ret (Some tt)
  end.

(** [main()].  Every pass reads at least one line, so one pass more than
    there are lines is enough (see [main_loop_enough]). *)
Definition main : M (option unit) :=
  portfolio <- load_portfolio ;;
  write_portfolio portfolio ;;
  fun w => main_loop (S (List.length (stdin w))) w.

(** ** Reference descriptions

    Pure descriptions of what one pass over the holdings sees and computes,
    against which the loops of the program are checked. *)

(** The world after [fetch_stock_data(stock)]. *)
Definition fetched (stock : string) (w : World) : World :=
  snd (fetch_stock_data stock w).

(** The world after one price request per holding, in order. *)
Fixpoint polled (items : dict Holding) (w : World) : World :=
  match items with
  | [] => w
  | (stock, _) :: items' => polled items' (fetched stock w)
  end.

(** The usable prices of one pass: the holdings are asked for in order,
    starting with request number [n]; a holding whose price is missing or
    falsy gets [None]. *)
Fixpoint quotes (service : nat -> string -> option number) (n : nat)
    (items : dict Holding) : list (Holding * option number) :=
  match items with
  | [] => []
  | (stock, details) :: items' =>
      (details, if_truthy (service n stock)) :: quotes service (S n) items'
  end.

(** [quantity * current_price] of the holdings that have a price. *)
Fixpoint priced_values (qs : list (Holding * option number)) : list (option number) :=
  match qs with
  | [] => []
  | (details, Some p) :: qs' => int_mul (quantity details) p :: priced_values qs'
  | (_, None) :: qs' => priced_values qs'
  end.

(** Their sum, added up from the left starting from [0.0]; [None] when a
    product overflows. *)
Fixpoint sum_from (total : number) (vs : list (option number)) : option number :=
  match vs with
  | [] => Some total
  | Some v :: vs' => sum_from (add total v) vs'
  | None :: _ => None
  end.

Definition balance_of (service : nat -> string -> option number) (n : nat)
    (items : dict Holding) : option number :=
  option_map round2 (sum_from (PyFloat 0) (priced_values (quotes service n items))).

(** Every quantity is within the range of binary64. *)
Definition in_range (items : dict Holding) : Prop :=
  Forall (fun kv => float_of_int (quantity (snd kv)) <> None) items.

(** Events of a price lookup. *)
Definition lookup_event (e : event) : Prop :=
  match e with
  | Request _ | Print (ErrorFetching _) => True
  | _ => False
  end.

(** A step that only looks prices up: the portfolio in memory, the disk
    and the pending input are as before, and the new events are requests
    and their error messages. *)
Definition quiet (w w' : World) : Prop :=
  memory w' = memory w /\ disk w' = disk w /\ market w' = market w /\
  stdin w' = stdin w /\
  exists evs, trace w' = trace w ++ evs /\ Forall lookup_event evs.



(** Every number of the portfolio is a builtin float, as after a load. *)
Definition builtin_holding (h : Holding) : Prop :=
  is_numpy (purchase_price h) = false.

Definition all_builtin (p : Portfolio) : Prop :=
  Forall (fun kv => builtin_holding (snd kv)) (stocks p) /\
  is_numpy (total_balance p) = false.

(** Infinities and NaN, and the two zeros, in the format's description. *)
Definition spec_unbounded (x : spec_float) : bool :=
  match x with
  | S754_nan | S754_infinity _ => true
  | _ => false
  end.

Definition spec_zero (x : spec_float) : bool :=
  match x with
  | S754_zero _ => true
  | _ => false
  end.

(** Events that write the portfolio file. *)
Definition saves (e : event) : bool :=
  match e with
  | Write path _ => String.eqb path PORTFOLIO_FILE
  | _ => false
  end.

(** Events that write any file. *)
Definition writes (e : event) : bool :=
  match e with
  | Write _ _ => true
  | _ => false
  end.

(** The holding that a successful [add_stock] stores under the symbol:
    the old one with its quantity increased, or a new one bought at the
    price just fetched. *)
Definition merged (old : option Holding) (n : Z) (price : number) : Holding :=
  match old with
  | Some details => increase details n
  | None => {| quantity := n; purchase_price := price |}
  end.

(** ** Sample sessions *)

Definition empty_portfolio : Portfolio :=
  {| stocks := []; total_balance := PyFloat 0 |}.

(** A fresh process holding [p], in front of [service], with [lines] still
    to be typed and an empty directory. *)
Definition session (p : Portfolio) (service : nat -> string -> option number)
    (lines : list string) : World :=
  {| memory := p; market := service; requests := 0; stdin := lines;
     trace := []; disk := [] |}.

(** A service whose answers do not change over time. *)
Definition steady (table : string -> option number) : nat -> string -> option number :=
  fun _ symbol => table symbol.

(** No symbol is known. *)
Definition nothing_known : string -> option number := fun _ => None.

(** AAPL closes at 100 while the first purchase is made (requests 0 and 1)
    and at 110 afterwards; nothing else is known. *)
Definition aapl_rising (n : nat) (symbol : string) : option number :=
  if String.eqb symbol "AAPL"
  then Some (NpFloat (if (n <? 2)%nat then 100 else 110)%float)
  else None.

(** Only MSFT is known, at 250.5. *)
Definition only_msft (symbol : string) : option number :=
  if String.eqb symbol "MSFT" then Some (NpFloat 250.5%float) else None.

(** Every symbol is quoted at zero. *)
Definition all_zero : string -> option number := fun _ => Some (NpFloat 0%float).

(** Every symbol closes at 55, as the service reports it. *)
Definition all_55 : string -> option number := fun _ => Some (NpFloat 55%float).

(** The same price as a builtin float. *)
Definition all_55_builtin : string -> option number := fun _ => Some (PyFloat 55%float).

Definition two_holdings : Portfolio :=
  {| stocks := [("AAPL", {| quantity := 2; purchase_price := PyFloat 100%float |});
                ("MSFT", {| quantity := 3; purchase_price := PyFloat 200%float |})];
     total_balance := PyFloat 1100%float |}.

(** Ten shares bought at 50, as loaded from the file. *)
Definition ten_at_50 : Portfolio :=
  {| stocks := [("ACME", {| quantity := 10; purchase_price := PyFloat 50%float |})];
     total_balance := PyFloat 500%float |}.

(** A holding whose recorded purchase price is zero. *)
Definition free_share : Portfolio :=
  {| stocks := [("ACME", {| quantity := 1; purchase_price := PyFloat 0%float |})];
     total_balance := PyFloat 0%float |}.

(** ** Further descriptions *)


(** The symbols asked to the service, in order. *)
Fixpoint requested (evs : list event) : list string :=
  match evs with
  | [] => []
  | Request symbol :: evs' => symbol :: requested evs'
  | _ :: evs' => requested evs'
  end.

(** The tables printed, in order. *)
Fixpoint tables (evs : list event) : list (list Row) :=
  match evs with
  | [] => []
  | Print (Table data) :: evs' => data :: tables evs'
  | _ :: evs' => tables evs'
  end.

(** The holdings with a usable price in one pass that starts with request
    number [n]: symbol and quantity, in order. *)
Fixpoint priced (service : nat -> string -> option number) (n : nat)
    (items : dict Holding) : list (string * Z) :=
  match items with
  | [] => []
  | (stock, details) :: items' =>
      match if_truthy (service n stock) with
      | Some _ => (stock, quantity details) :: priced service (S n) items'
      | None => priced service (S n) items'
      end
  end.

(** Every key is in upper case. *)
Definition upper_keys (items : dict Holding) : Prop :=
  Forall (fun k => upper k = k) (keys items).

(** The answer typed at the export prompt counts as a yes. *)
Definition says_yes (line : string) : bool :=
  String.eqb (lower (strip line)) "yes".

(** The service has no figure: every close is NaN. *)
Definition all_nan : string -> option number := fun _ => Some (NpFloat nan).

(** Answers that depend on the symbol only, whatever the request number. *)
Definition timeless (service : nat -> string -> option number) : Prop :=
  forall n m symbol, service n symbol = service m symbol.

(** * Properties *)

Unset Implicit Arguments.

(** ** Dictionaries *)

Section DictFacts.
Variable V : Type.
Implicit Types (d : dict V) (k : string) (v : V).

Lemma get_set_same d k v : get k (set k v d) = Some v.
Proof.
  induction d as [|[k' v'] d IH]; simpl.
  - now rewrite String.eqb_refl.
  - destruct (String.eqb k k') eqn:E; simpl; rewrite E; auto.
Qed.

Lemma get_set_other d k k' v : k <> k' -> get k' (set k v d) = get k' d.
Proof.
  intros Hne. induction d as [|[k0 v0] d IH]; simpl.
  - destruct (String.eqb k' k) eqn:E; auto.
    apply String.eqb_eq in E. congruence.
  - destruct (String.eqb k k0) eqn:E; simpl.
    + apply String.eqb_eq in E. subst k0.
      destruct (String.eqb k' k) eqn:E'; auto.
      apply String.eqb_eq in E'. congruence.
    + now rewrite IH.
Qed.

Lemma get_del_other d k k' : k <> k' -> get k' (del k d) = get k' d.
Proof.
  intros Hne. induction d as [|[k0 v0] d IH]; simpl; auto.
  destruct (String.eqb k k0) eqn:E; simpl.
  - apply String.eqb_eq in E. subst k0.
    destruct (String.eqb k' k) eqn:E'; auto.
    apply String.eqb_eq in E'. congruence.
  - now rewrite IH.
Qed.

Lemma get_none_not_key d k : get k d = None -> ~ In k (keys d).
Proof.
  induction d as [|[k0 v0] d IH]; simpl; auto.
  destruct (String.eqb k k0) eqn:E; [discriminate|].
  intros H [->|Hin]; [now rewrite String.eqb_refl in E | now apply IH].
Qed.

Lemma not_key_get_none d k : ~ In k (keys d) -> get k d = None.
Proof.
  induction d as [|[k0 v0] d IH]; simpl; auto.
  intros H. destruct (String.eqb k k0) eqn:E.
  - apply String.eqb_eq in E. subst. tauto.
  - apply IH. tauto.
Qed.

Lemma get_del_same d k : wf d -> get k (del k d) = None.
Proof.
  unfold wf. induction d as [|[k0 v0] d IH]; simpl; auto.
  intros Hnd. inversion Hnd as [|? ? Hnotin Hnd']; subst.
  destruct (String.eqb k k0) eqn:E; simpl.
  - apply String.eqb_eq in E. subst. now apply not_key_get_none.
  - rewrite E. now apply IH.
Qed.

Lemma length_del d k : mem k d = true -> S (List.length (del k d)) = List.length d.
Proof.
  unfold mem. induction d as [|[k0 v0] d IH]; simpl; [discriminate|].
  destruct (String.eqb k k0) eqn:E; simpl; auto.
Qed.

Lemma keys_del_incl d k k' : In k' (keys (del k d)) -> In k' (keys d).
Proof.
  induction d as [|[k0 v0] d IH]; simpl; auto.
  destruct (String.eqb k k0); simpl; tauto.
Qed.

Lemma wf_del d k : wf d -> wf (del k d).
Proof.
  unfold wf. induction d as [|[k0 v0] d IH]; simpl; auto.
  intros Hnd. inversion Hnd as [|? ? Hnotin Hnd']; subst.
  destruct (String.eqb k k0); auto.
  simpl. constructor; auto. intros Hin. apply Hnotin.
  now apply keys_del_incl in Hin.
Qed.

Lemma keys_set_incl d k v k' : In k' (keys (set k v d)) -> k' = k \/ In k' (keys d).
Proof.
  induction d as [|[k0 v0] d IH]; simpl.
  - intuition.
  - destruct (String.eqb k k0); simpl; intuition.
Qed.

Lemma wf_set d k v : wf d -> wf (set k v d).
Proof.
  unfold wf. induction d as [|[k0 v0] d IH]; simpl.
  - intros _. repeat constructor. simpl. tauto.
  - intros Hnd. inversion Hnd as [|? ? Hnotin Hnd']; subst.
    destruct (String.eqb k k0) eqn:E; simpl.
    + now constructor.
    + constructor; auto. intros Hin.
      apply keys_set_incl in Hin. destruct Hin as [->|Hin]; auto.
      now rewrite String.eqb_refl in E.
Qed.

End DictFacts.

(** ** Price lookups *)

Lemma fetch_stock_data_eq stock w :
  fetch_stock_data stock w = (Ok (market w (requests w) stock), fetched stock w).
Proof.
  unfold fetched, fetch_stock_data, request, print, emit, bind, ret. simpl.
  destruct (market w (requests w) stock); reflexivity.
Qed.

Lemma fetched_frame stock w :
  memory (fetched stock w) = memory w /\
  disk (fetched stock w) = disk w /\
  stdin (fetched stock w) = stdin w /\
  market (fetched stock w) = market w /\
  requests (fetched stock w) = S (requests w).
Proof.
  unfold fetched, fetch_stock_data, request, print, emit, bind, ret. simpl.
  destruct (market w (requests w) stock); simpl; auto.
Qed.

Lemma fetched_trace stock w :
  trace (fetched stock w) =
  trace w ++ Request stock ::
    match market w (requests w) stock with
    | Some _ => []
    | None => [Print (ErrorFetching stock)]
    end.
Proof.
  unfold fetched, fetch_stock_data, request, print, emit, bind, ret. simpl.
  destruct (market w (requests w) stock); simpl; auto.
  now rewrite <- app_assoc.
Qed.

Lemma fetched_lookup_events stock w :
  exists evs, trace (fetched stock w) = trace w ++ evs /\ Forall lookup_event evs.
Proof.
  rewrite fetched_trace. eexists; split; [reflexivity|].
  destruct (market w (requests w) stock); repeat constructor.
Qed.

Lemma polled_frame items : forall w,
  memory (polled items w) = memory w /\
  disk (polled items w) = disk w /\
  stdin (polled items w) = stdin w /\
  market (polled items w) = market w /\
  requests (polled items w) = List.length items + requests w.
Proof.
  induction items as [|[stock details] items IH]; intros w; simpl;
    [repeat split; auto|].
  destruct (IH (fetched stock w)) as (Hm & Hd & Hi & Hk & Hr).
  destruct (fetched_frame stock w) as (Hm' & Hd' & Hi' & Hk' & Hr').
  rewrite Hm, Hd, Hi, Hk, Hr, Hm', Hd', Hi', Hk', Hr'. repeat split; auto; lia.
Qed.

Lemma polled_lookup_events items : forall w,
  exists evs, trace (polled items w) = trace w ++ evs /\ Forall lookup_event evs.
Proof.
  induction items as [|[stock details] items IH]; intros w; simpl.
  - exists []. now rewrite app_nil_r.
  - destruct (IH (fetched stock w)) as (evs & Ht & Hall).
    destruct (fetched_lookup_events stock w) as (evs0 & Ht0 & Hall0).
    exists (evs0 ++ evs). rewrite Ht, Ht0, app_assoc. split; auto.
    apply Forall_app; auto.
Qed.

Lemma lookup_event_no_write e : lookup_event e -> writes e = false.
Proof. destruct e as [[]| | |]; simpl; auto; contradiction. Qed.

Lemma lookup_events_no_write evs : Forall lookup_event evs -> filter writes evs = [].
Proof.
  induction 1 as [|e evs He _ IH]; simpl; auto.
  now rewrite (lookup_event_no_write _ He).
Qed.

(** ** The balance loop against its description *)

Lemma in_range_sum items : forall service n total,
  in_range items ->
  exists t, sum_from total (priced_values (quotes service n items)) = Some t.
Proof.
  induction items as [|[stock details] items IH]; intros service n total Hr; simpl.
  - eauto.
  - inversion Hr as [|? ? Hq Hr']; subst. simpl in Hq.
    destruct (if_truthy (service n stock)) as [p|]; simpl; auto.
    unfold int_mul. destruct (float_of_int (quantity details)); [|congruence].
    apply IH; auto.
Qed.

Lemma sum_values_ok items : forall total w t,
  sum_from total (priced_values (quotes (market w) (requests w) items)) = Some t ->
  sum_values items total w = (Ok t, polled items w).
Proof.
  induction items as [|[stock details] items IH]; intros total w t; simpl.
  - intros [= <-]. reflexivity.
  - intros Hsum. unfold bind at 1. rewrite fetch_stock_data_eq.
    destruct (fetched_frame stock w) as (_ & _ & _ & Hk & Hr).
    destruct (if_truthy (market w (requests w) stock)) as [p|]; simpl in Hsum.
    + destruct (int_mul (quantity details) p) as [v|]; [|discriminate].
      simpl. unfold bind at 1. simpl. apply IH. now rewrite Hk, Hr.
    + apply IH. now rewrite Hk, Hr.
Qed.

Lemma update_total_balance_ok w t :
  sum_from (PyFloat 0)
    (priced_values (quotes (market w) (requests w) (stocks (memory w)))) = Some t ->
  exists w',
    update_total_balance w = (Ok tt, w') /\
    memory w' = {| stocks := stocks (memory w); total_balance := round2 t |} /\
    disk w' = disk w /\ stdin w' = stdin w /\ market w' = market w /\
    requests w' = List.length (stocks (memory w)) + requests w /\
    exists evs, trace w' = trace w ++ evs /\ Forall lookup_event evs.
Proof.
  intros Hsum. unfold update_total_balance, read_portfolio, write_portfolio.
  unfold bind at 1. unfold bind at 1. rewrite (sum_values_ok _ _ _ _ Hsum).
  unfold bind. simpl.
  destruct (polled_frame (stocks (memory w)) w) as (Hm & Hd & Hi & Hk & Hr).
  eexists; split; [reflexivity|]. simpl.
  rewrite Hm. repeat split; auto.
  apply polled_lookup_events.
Qed.

Lemma quiet_refl w : quiet w w.
Proof.
  repeat split. exists []. now rewrite app_nil_r.
Qed.

Lemma quiet_trans w1 w2 w3 : quiet w1 w2 -> quiet w2 w3 -> quiet w1 w3.
Proof.
  intros (Hm & Hd & Hk & Hi & evs & Ht & Ha)
         (Hm' & Hd' & Hk' & Hi' & evs' & Ht' & Ha').
  repeat split; try congruence.
  exists (evs ++ evs'). rewrite Ht', Ht, app_assoc. split; auto.
  apply Forall_app; auto.
Qed.

Lemma quiet_fetched stock w : quiet w (fetched stock w).
Proof.
  destruct (fetched_frame stock w) as (Hm & Hd & Hi & Hk & _).
  repeat split; auto. apply fetched_lookup_events.
Qed.

Lemma sum_values_quiet items : forall total w,
  quiet w (snd (sum_values items total w)).
Proof.
  induction items as [|[stock details] items IH]; intros total w; simpl.
  - apply quiet_refl.
  - unfold bind at 1. rewrite fetch_stock_data_eq.
    apply quiet_trans with (fetched stock w); [apply quiet_fetched|].
    destruct (if_truthy (market w (requests w) stock)) as [p|]; [|apply IH].
    unfold bind, or_raise. destruct (int_mul (quantity details) p); simpl.
    + apply IH.
    + apply quiet_refl.
Qed.

Lemma update_total_balance_frame w :
  stocks (memory (snd (update_total_balance w))) = stocks (memory w) /\
  disk (snd (update_total_balance w)) = disk w /\
  market (snd (update_total_balance w)) = market w /\
  exists evs, trace (snd (update_total_balance w)) = trace w ++ evs /\
              Forall lookup_event evs.
Proof.
  unfold update_total_balance, read_portfolio, write_portfolio, bind. simpl.
  destruct (sum_values_quiet (stocks (memory w)) (PyFloat 0) w)
    as (Hm & Hd & Hk & _ & Hev).
  destruct (sum_values (stocks (memory w)) (PyFloat 0) w) as [[t|e] w1];
    simpl in *; rewrite Hm; intuition.
Qed.

Lemma save_portfolio_eq w :
  save_portfolio w =
  (Ok tt, {| memory := memory w; market := market w; requests := requests w;
             stdin := stdin w;
             trace := trace w ++ [Write PORTFOLIO_FILE (JsonFile (json_dump (memory w)))];
             disk := set PORTFOLIO_FILE (JsonFile (json_dump (memory w))) (disk w) |}).
Proof. reflexivity. Qed.

(** ** [add_stock] *)

Lemma add_stock_unavailable w symbol n :
  if_truthy (market w (requests w) (upper symbol)) = None ->
  add_stock symbol n w =
  (Ok tt,
   {| memory := memory w; market := market w; requests := S (requests w);
      stdin := stdin w;
      trace := trace (fetched (upper symbol) w) ++ [Print (FailedToFetch (upper symbol))];
      disk := disk w |}).
Proof.
  intros Hnone. unfold add_stock, bind. rewrite fetch_stock_data_eq, Hnone.
  destruct (fetched_frame (upper symbol) w) as (Hm & Hd & Hi & Hk & Hr).
  unfold print, emit. now rewrite Hm, Hd, Hi, Hk, Hr.
Qed.

Lemma add_stock_available w symbol n price :
  market w (requests w) (upper symbol) = Some price ->
  truthy price = true ->
  add_stock symbol n w =
  bind update_total_balance (fun _ => save_portfolio)
    {| memory :=
         {| stocks := set (upper symbol)
                          (merged (get (upper symbol) (stocks (memory w))) n price)
                          (stocks (memory w));
            total_balance := total_balance (memory w) |};
       market := market w; requests := S (requests w); stdin := stdin w;
       trace := trace w ++ Request (upper symbol) ::
                  match get (upper symbol) (stocks (memory w)) with
                  | Some _ => [Print (AlreadyExists (upper symbol))]
                  | None => []
                  end ++ [Print (Added n (upper symbol) (round2 price))];
       disk := disk w |}.
Proof.
  intros Hp Ht. unfold add_stock. unfold bind at 1.
  rewrite fetch_stock_data_eq, Hp. simpl. rewrite Ht.
  unfold fetched, fetch_stock_data, request, read_portfolio, write_portfolio,
    print, emit, bind, ret. simpl. rewrite Hp. simpl.
  destruct (get (upper symbol) (stocks (memory w))); simpl;
    repeat rewrite <- app_assoc; reflexivity.
Qed.

(** C2: when the price request of [add_stock] fails, the operation returns
    normally, the portfolio in memory (holdings and balance) and the disk
    are exactly as before, the failure is printed, and the only events are
    the request and the two messages: nothing is written. *)
Theorem add_stock_fetch_failure_is_noop w symbol n :
  market w (requests w) (upper symbol) = None ->
  let w' := snd (add_stock symbol n w) in
  fst (add_stock symbol n w) = Ok tt /\
  memory w' = memory w /\
  disk w' = disk w /\
  trace w' = trace w ++ [Request (upper symbol);
                         Print (ErrorFetching (upper symbol));
                         Print (FailedToFetch (upper symbol))] /\
  filter writes (trace w') = filter writes (trace w).
Proof.
  intros Hnone w'. subst w'.
  rewrite add_stock_unavailable by now rewrite Hnone.
  simpl. rewrite fetched_trace, Hnone, <- app_assoc. simpl.
  repeat split; auto.
  rewrite filter_app. simpl. now rewrite app_nil_r.
Qed.

Lemma add_stock_fetch_failure_is_noop_witness :
  fst (add_stock "goog" 4 (session two_holdings (steady nothing_known) [])) = Ok tt /\
  memory (snd (add_stock "goog" 4 (session two_holdings (steady nothing_known) [])))
    = two_holdings /\
  disk (snd (add_stock "goog" 4 (session two_holdings (steady nothing_known) [])))
    = [] /\
  trace (snd (add_stock "goog" 4 (session two_holdings (steady nothing_known) [])))
    = [Request "GOOG"; Print (ErrorFetching "GOOG"); Print (FailedToFetch "GOOG")] /\
  filter writes
    (trace (snd (add_stock "goog" 4 (session two_holdings (steady nothing_known) []))))
    = [].
Proof.
  exact (add_stock_fetch_failure_is_noop
           (session two_holdings (steady nothing_known) []) "goog" 4 eq_refl).
Defined.

Lemma stocks_after_add w symbol n price :
  market w (requests w) (upper symbol) = Some price ->
  truthy price = true ->
  stocks (memory (snd (add_stock symbol n w))) =
  set (upper symbol) (merged (get (upper symbol) (stocks (memory w))) n price)
      (stocks (memory w)).
Proof.
  intros Hp Ht. rewrite (add_stock_available _ _ n _ Hp Ht).
  set (w2 := {| memory := _ |}).
  unfold bind. destruct (update_total_balance_frame w2) as (Hs & _).
  destruct (update_total_balance w2) as [[[]|e] w3]; simpl in *; auto.
Qed.

(** C4: with a successful price request, adding a symbol that is already
    held increases its quantity by the amount added and keeps the purchase
    price recorded first (and the place of the entry); adding a symbol that
    is not held appends a holding bought at the price fetched now; no other
    holding changes.  Adding 5 AAPL at 100 and then 3 AAPL at 110 to an
    empty portfolio leaves the single holding AAPL: 8 shares at 100. *)
Theorem add_stock_accumulates_quantity w symbol n price :
  market w (requests w) (upper symbol) = Some price ->
  truthy price = true ->
  let before := stocks (memory w) in
  let after := stocks (memory (snd (add_stock symbol n w))) in
  (forall details,
     get (upper symbol) before = Some details ->
     get (upper symbol) after =
       Some {| quantity := quantity details + n;
               purchase_price := purchase_price details |} /\
     keys after = keys before) /\
  (get (upper symbol) before = None ->
     after = before ++ [(upper symbol, {| quantity := n; purchase_price := price |})]) /\
  (forall k, k <> upper symbol -> get k after = get k before) /\
  stocks (memory (snd (bind (add_stock "AAPL" 5) (fun _ => add_stock "AAPL" 3)
                         (session empty_portfolio aapl_rising [])))) =
    [("AAPL", {| quantity := 8; purchase_price := NpFloat 100 |})].
Proof.
  intros Hp Ht before after. subst before after.
  rewrite (stocks_after_add _ _ n _ Hp Ht).
  generalize (stocks (memory w)) as d. intros d.
  split; [|split; [|split]].
  - intros details Hget. rewrite Hget, get_set_same. split; [reflexivity|].
    clear Hp. induction d as [|[k v] d IH]; simpl in *; [discriminate|].
    destruct (String.eqb (upper symbol) k); simpl; [reflexivity|].
    now rewrite IH.
  - intros Hget. rewrite Hget. simpl.
    clear Hp. induction d as [|[k v] d IH]; simpl in *; [reflexivity|].
    destruct (String.eqb (upper symbol) k); [discriminate|].
    now rewrite IH.
  - intros k Hk. apply get_set_other. congruence.
  - vm_compute. reflexivity.
Qed.

Lemma add_stock_accumulates_quantity_witness :
  get "ACME"
    (stocks (memory (snd (add_stock "acme" 7 (session ten_at_50 (steady all_55) [])))))
  = Some {| quantity := 17; purchase_price := PyFloat 50 |}.
Proof.
  exact (proj1 (proj1 (add_stock_accumulates_quantity
                         (session ten_at_50 (steady all_55) []) "acme" 7
                         (NpFloat 55) eq_refl eq_refl)
                      {| quantity := 10; purchase_price := PyFloat 50 |} eq_refl)).
Defined.

(** ** Recomputing and saving *)

Lemma recompute_and_save w t :
  sum_from (PyFloat 0)
    (priced_values (quotes (market w) (requests w) (stocks (memory w)))) = Some t ->
  exists w',
    bind update_total_balance (fun _ => save_portfolio) w = (Ok tt, w') /\
    memory w' = {| stocks := stocks (memory w); total_balance := round2 t |} /\
    disk w' = set PORTFOLIO_FILE (JsonFile (json_dump (memory w'))) (disk w) /\
    market w' = market w /\
    exists evs,
      trace w' = trace w ++ evs ++ [Write PORTFOLIO_FILE (JsonFile (json_dump (memory w')))] /\
      Forall lookup_event evs.
Proof.
  intros Hsum.
  destruct (update_total_balance_ok w t Hsum)
    as (w1 & Hrun & Hm & Hd & _ & Hk & _ & evs & Ht & Hall).
  unfold bind. rewrite Hrun, save_portfolio_eq.
  eexists; split; [reflexivity|]. simpl.
  rewrite Hm, Hd, Hk, Ht. repeat split; auto.
  exists evs. now rewrite app_assoc.
Qed.

Lemma balance_of_sum service n items t :
  sum_from (PyFloat 0) (priced_values (quotes service n items)) = Some t ->
  balance_of service n items = Some (round2 t).
Proof. unfold balance_of. now intros ->. Qed.

(** ** [remove_stock] *)

Lemma remove_stock_absent w symbol :
  mem (upper symbol) (stocks (memory w)) = false ->
  remove_stock symbol w =
  (Ok tt,
   {| memory := memory w; market := market w; requests := requests w;
      stdin := stdin w;
      trace := trace w ++ [Print (NotInPortfolio (upper symbol))];
      disk := disk w |}).
Proof.
  intros Habs. unfold remove_stock, read_portfolio, bind. now rewrite Habs.
Qed.

Lemma remove_stock_present w symbol :
  mem (upper symbol) (stocks (memory w)) = true ->
  remove_stock symbol w =
  bind update_total_balance (fun _ => save_portfolio)
    {| memory := {| stocks := del (upper symbol) (stocks (memory w));
                    total_balance := total_balance (memory w) |};
       market := market w; requests := requests w; stdin := stdin w;
       trace := trace w ++ [Print (Removed (upper symbol))];
       disk := disk w |}.
Proof.
  intros Hin. unfold remove_stock, read_portfolio. unfold bind at 1.
  now rewrite Hin.
Qed.

(** C5: [remove_stock] of a symbol that is not held prints "not in your
    portfolio" and changes neither the holdings, the balance nor the disk,
    and writes nothing.  When the symbol is held, exactly its entry is
    deleted (every other holding is kept, in order), the balance is
    recomputed over the remaining holdings, and the resulting document is
    written to the portfolio file as the last event. *)
Theorem remove_stock_correct w symbol :
  let w' := snd (remove_stock symbol w) in
  (mem (upper symbol) (stocks (memory w)) = false ->
     fst (remove_stock symbol w) = Ok tt /\
     memory w' = memory w /\
     disk w' = disk w /\
     trace w' = trace w ++ [Print (NotInPortfolio (upper symbol))]) /\
  (mem (upper symbol) (stocks (memory w)) = true ->
   wf (stocks (memory w)) ->
   in_range (del (upper symbol) (stocks (memory w))) ->
     fst (remove_stock symbol w) = Ok tt /\
     stocks (memory w') = del (upper symbol) (stocks (memory w)) /\
     get (upper symbol) (stocks (memory w')) = None /\
     (forall k, k <> upper symbol ->
        get k (stocks (memory w')) = get k (stocks (memory w))) /\
     S (List.length (stocks (memory w'))) = List.length (stocks (memory w)) /\
     balance_of (market w) (requests w) (del (upper symbol) (stocks (memory w))) =
       Some (total_balance (memory w')) /\
     get PORTFOLIO_FILE (disk w') = Some (JsonFile (json_dump (memory w'))) /\
     exists evs,
       trace w' = trace w ++ Print (Removed (upper symbol)) :: evs ++
                  [Write PORTFOLIO_FILE (JsonFile (json_dump (memory w')))] /\
       Forall lookup_event evs).
Proof.
  intros w'. subst w'. split.
  - intros Habs. rewrite (remove_stock_absent _ _ Habs). simpl. auto.
  - intros Hin Hwf Hrange. rewrite (remove_stock_present _ _ Hin).
    set (w1 := {| memory := _ |}).
    destruct (in_range_sum _ (market w) (requests w) (PyFloat 0) Hrange) as (t & Hsum).
    destruct (recompute_and_save w1 t Hsum)
      as (w2 & Hrun & Hm & Hd & Hk & evs & Ht & Hall).
    rewrite Hrun. simpl. rewrite Hd, Hm. simpl.
    repeat split.
    + now apply get_del_same.
    + intros k Hk'. apply get_del_other. congruence.
    + now apply length_del.
    + now apply balance_of_sum.
    + apply get_set_same.
    + exists evs. rewrite Ht, Hm. simpl. rewrite <- app_assoc. simpl. auto.
Qed.

Lemma remove_stock_correct_witness :
  (fst (remove_stock "goog" (session two_holdings (steady only_msft) [])) = Ok tt /\
   memory (snd (remove_stock "goog" (session two_holdings (steady only_msft) [])))
     = two_holdings) /\
  (fst (remove_stock "aapl" (session two_holdings (steady only_msft) [])) = Ok tt /\
   stocks (memory (snd (remove_stock "aapl" (session two_holdings (steady only_msft) []))))
     = [("MSFT", {| quantity := 3; purchase_price := PyFloat 200 |})]).
Proof.
  split.
  - destruct (proj1 (remove_stock_correct
                       (session two_holdings (steady only_msft) []) "goog") eq_refl)
      as (H1 & H2 & _).
    exact (conj H1 H2).
  - assert (Hwf : wf (stocks (memory (session two_holdings (steady only_msft) [])))).
    { repeat constructor; simpl; intuition discriminate. }
    assert (Hrange : in_range (del (upper "aapl")
                       (stocks (memory (session two_holdings (steady only_msft) []))))).
    { repeat constructor; simpl; discriminate. }
    destruct (proj2 (remove_stock_correct
                       (session two_holdings (steady only_msft) []) "aapl")
                    eq_refl Hwf Hrange)
      as (H1 & H2 & _).
    exact (conj H1 H2).
Defined.

(** ** The balance after a change *)

(** C6: after [update_total_balance], and so after every [add_stock] with
    an available price and every [remove_stock] of a held symbol, the
    balance in memory is [balance_of] the holdings: the sum, over the
    holdings whose price is available in this pass, of quantity times that
    price, rounded to two decimals; a holding whose price is missing adds
    nothing.  With two holdings of which the first has no price, the
    balance is the rounded value of the second alone. *)
Theorem total_balance_is_sum_of_priced_holdings :
  (forall w,
     in_range (stocks (memory w)) ->
     fst (update_total_balance w) = Ok tt /\
     stocks (memory (snd (update_total_balance w))) = stocks (memory w) /\
     balance_of (market w) (requests w) (stocks (memory w)) =
       Some (total_balance (memory (snd (update_total_balance w))))) /\
  (forall w symbol n price,
     market w (requests w) (upper symbol) = Some price ->
     truthy price = true ->
     in_range (stocks (memory (snd (add_stock symbol n w)))) ->
     fst (add_stock symbol n w) = Ok tt /\
     balance_of (market w) (S (requests w))
                (stocks (memory (snd (add_stock symbol n w)))) =
       Some (total_balance (memory (snd (add_stock symbol n w))))) /\
  (forall w symbol,
     mem (upper symbol) (stocks (memory w)) = true ->
     in_range (stocks (memory (snd (remove_stock symbol w)))) ->
     fst (remove_stock symbol w) = Ok tt /\
     balance_of (market w) (requests w)
                (stocks (memory (snd (remove_stock symbol w)))) =
       Some (total_balance (memory (snd (remove_stock symbol w))))) /\
  (forall w s1 d1 s2 d2 p v,
     stocks (memory w) = [(s1, d1); (s2, d2)] ->
     market w (requests w) s1 = None ->
     market w (S (requests w)) s2 = Some p ->
     truthy p = true ->
     int_mul (quantity d2) p = Some v ->
     fst (update_total_balance w) = Ok tt /\
     total_balance (memory (snd (update_total_balance w))) =
       round2 (add (PyFloat 0) v)).
Proof.
  split; [|split; [|split]].
  - intros w Hrange.
    destruct (in_range_sum _ (market w) (requests w) (PyFloat 0) Hrange) as (t & Hsum).
    destruct (update_total_balance_ok w t Hsum) as (w' & Hrun & Hm & _).
    rewrite Hrun. simpl. rewrite Hm. simpl.
    repeat split; auto. now apply balance_of_sum.
  - intros w symbol n price Hp Ht.
    rewrite (stocks_after_add _ _ n _ Hp Ht).
    rewrite (add_stock_available _ _ n _ Hp Ht).
    set (w1 := {| memory := _ |}). intros Hrange.
    destruct (in_range_sum _ (market w) (S (requests w)) (PyFloat 0) Hrange)
      as (t & Hsum).
    destruct (recompute_and_save w1 t Hsum) as (w2 & Hrun & Hm & _).
    rewrite Hrun. simpl. rewrite Hm. simpl.
    split; auto. now apply balance_of_sum.
  - intros w symbol Hin.
    rewrite (remove_stock_present _ _ Hin).
    set (w1 := {| memory := _ |}).
    assert (Hs : stocks (memory (snd (bind update_total_balance
                                        (fun _ => save_portfolio) w1))) =
                 del (upper symbol) (stocks (memory w))).
    { unfold bind. destruct (update_total_balance_frame w1) as (Hs & _).
      destruct (update_total_balance w1) as [[[]|e] w3]; simpl in *; auto. }
    rewrite Hs. intros Hrange.
    destruct (in_range_sum _ (market w) (requests w) (PyFloat 0) Hrange)
      as (t & Hsum).
    destruct (recompute_and_save w1 t Hsum) as (w2 & Hrun & Hm & _).
    rewrite Hrun. simpl. rewrite Hm. simpl.
    split; auto. now apply balance_of_sum.
  - intros w s1 d1 s2 d2 p v Hst H1 H2 Ht Hv.
    assert (Hsum : sum_from (PyFloat 0)
              (priced_values (quotes (market w) (requests w) (stocks (memory w)))) =
              Some (add (PyFloat 0) v)).
    { rewrite Hst. simpl. rewrite H1, H2. simpl. rewrite Ht, Hv. reflexivity. }
    destruct (update_total_balance_ok w _ Hsum) as (w' & Hrun & Hm & _).
    rewrite Hrun. simpl. rewrite Hm. auto.
Qed.

Lemma total_balance_is_sum_of_priced_holdings_witness :
  fst (update_total_balance (session two_holdings (steady only_msft) [])) = Ok tt /\
  total_balance
    (memory (snd (update_total_balance (session two_holdings (steady only_msft) []))))
  = NpFloat 751.5.
Proof.
  exact (proj2 (proj2 (proj2 total_balance_is_sum_of_priced_holdings))
           (session two_holdings (steady only_msft) [])
           "AAPL" {| quantity := 2; purchase_price := PyFloat 100 |}
           "MSFT" {| quantity := 3; purchase_price := PyFloat 200 |}
           (NpFloat 250.5) (NpFloat 751.5)
           eq_refl eq_refl eq_refl eq_refl eq_refl).
Defined.

(** ** Saving and loading *)



Lemma json_load_builtin d : all_builtin (json_load d).
Proof.
  destruct d as [items total]. unfold all_builtin, json_load. simpl.
  split; [|reflexivity].
  induction items as [|[k [q x]] items IH]; simpl; constructor; auto.
  reflexivity.
Qed.


(** ** Division by a zero purchase price *)

Section FloatFacts.
Local Open Scope float_scope.

Lemma eqb_zero x : (x =? 0) = spec_zero (Prim2SF x).
Proof.
  rewrite FloatAxioms.eqb_spec. change (Prim2SF 0) with (S754_zero false).
  destruct (Prim2SF x) as [s|s| |s m e]; try destruct s; reflexivity.
Qed.

Lemma unbounded_not_finite x :
  spec_unbounded (Prim2SF x) = true -> is_finite x = false.
Proof.
  unfold is_finite, is_nan, is_infinity.
  rewrite !FloatAxioms.eqb_spec, abs_spec.
  change (Prim2SF infinity) with (S754_infinity false).
  destruct (Prim2SF x) as [s|[|]| |s m e]; simpl; try discriminate; reflexivity.
Qed.

Lemma hundred_spec : Prim2SF 100 = S754_finite false 7036874417766400 (-46).
Proof. reflexivity. Qed.

Lemma ratio_by_zero_unbounded cp pp :
  (pp =? 0) = true -> (cp =? 0) = false ->
  spec_unbounded (Prim2SF ((cp - pp) / pp * 100)) = true.
Proof.
  rewrite !eqb_zero, mul_spec, div_spec, sub_spec, hundred_spec.
  unfold SF64mul, SF64div, SF64sub.
  destruct (Prim2SF cp) as [s|s| |s m e], (Prim2SF pp) as [s'|s'| |s' m' e'];
    simpl; try discriminate; reflexivity.
Qed.

Lemma rint_unbounded x : spec_unbounded (Prim2SF x) = true -> rint x = x.
Proof.
  unfold rint. destruct (Prim2SF x); simpl; try discriminate; reflexivity.
Qed.

Lemma np_round2_unbounded x :
  spec_unbounded (Prim2SF x) = true ->
  spec_unbounded (Prim2SF (np_round2 x)) = true.
Proof.
  intros Hx. unfold np_round2.
  assert (Hm : spec_unbounded (Prim2SF (x * 100)) = true).
  { rewrite mul_spec, hundred_spec. unfold SF64mul.
    destruct (Prim2SF x); simpl in *; try discriminate; reflexivity. }
  rewrite (rint_unbounded _ Hm), div_spec, hundred_spec. unfold SF64div.
  destruct (Prim2SF (x * 100)); simpl in *; try discriminate; reflexivity.
Qed.

End FloatFacts.

(** ** The valuation loop *)

Lemma valuation_rows_skip w stock details items data :
  if_truthy (market w (requests w) stock) = None ->
  valuation_rows ((stock, details) :: items) data w =
  valuation_rows items data (fetched stock w).
Proof.
  intros Hnone. simpl. unfold bind at 1.
  now rewrite fetch_stock_data_eq, Hnone.
Qed.

Lemma valuation_rows_quiet items : forall data w,
  quiet w (snd (valuation_rows items data w)).
Proof.
  induction items as [|[stock details] items IH]; intros data w; simpl.
  - apply quiet_refl.
  - unfold bind at 1. rewrite fetch_stock_data_eq.
    apply quiet_trans with (fetched stock w); [apply quiet_fetched|].
    destruct (if_truthy (market w (requests w) stock)) as [p|]; [|apply IH].
    unfold bind, or_raise.
    destruct (int_mul (quantity details) p); simpl; [|apply quiet_refl].
    destruct (mul_int (sub p (purchase_price details)) (quantity details));
      simpl; [|apply quiet_refl].
    destruct (div (sub p (purchase_price details)) (purchase_price details));
      simpl; [|apply quiet_refl].
    apply IH.
Qed.

Lemma valuation_rows_keeps items : forall data w data' row,
  fst (valuation_rows items data w) = Ok data' -> In row data -> In row data'.
Proof.
  induction items as [|[stock details] items IH]; intros data w data' row; simpl.
  - intros [= <-]. auto.
  - unfold bind at 1. rewrite fetch_stock_data_eq.
    destruct (if_truthy (market w (requests w) stock)) as [p|]; [|apply IH].
    unfold bind, or_raise.
    destruct (int_mul (quantity details) p); simpl; [|discriminate].
    destruct (mul_int (sub p (purchase_price details)) (quantity details));
      simpl; [|discriminate].
    destruct (div (sub p (purchase_price details)) (purchase_price details));
      simpl; [|discriminate].
    intros Hrun Hin. eapply IH; [exact Hrun|].
    apply in_or_app. now left.
Qed.

Lemma lookup_events_no_saves evs : Forall lookup_event evs -> filter saves evs = [].
Proof.
  induction 1 as [|e evs He _ IH]; simpl; auto.
  destruct e as [[]| | |]; simpl in *; auto; contradiction.
Qed.

Lemma lookup_events_no_total evs t :
  Forall lookup_event evs -> ~ In (Print (TotalValue t)) evs.
Proof.
  induction 1 as [|e evs He _ IH]; simpl; auto.
  intros [->|Hin]; auto.
Qed.

Lemma valuation_rows_priced w stock details items data cp qf :
  market w (requests w) stock = Some cp ->
  truthy cp = true ->
  float_of_int (quantity details) = Some qf ->
  div (sub cp (purchase_price details)) (purchase_price details) <> None ->
  valuation_rows ((stock, details) :: items) data w =
  valuation_rows items
    (data ++
     [{| Stock := stock;
         Quantity := quantity details;
         Purchase_Price := round2 (purchase_price details);
         Current_Price := round2 cp;
         Current_Value := round2 (result_of cp cp (qf * value cp)%float);
         Profit_Loss :=
           round2 (result_of cp (purchase_price details)
                     ((value cp - value (purchase_price details)) * qf)%float);
         Profit_Loss_pct :=
           round2 (result_of cp (purchase_price details)
                     ((value cp - value (purchase_price details))
                      / value (purchase_price details) * 100)%float) |}])
    (fetched stock w).
Proof.
  intros Hp Ht Hq Hdiv.
  simpl. unfold bind at 1. rewrite fetch_stock_data_eq, Hp. simpl. rewrite Ht.
  unfold int_mul, mul_int. rewrite Hq. simpl.
  unfold bind at 1. simpl. unfold bind at 1. simpl.
  destruct (div (sub cp (purchase_price details)) (purchase_price details))
    as [ratio|] eqn:Hr; [|congruence].
  unfold bind at 1. simpl.
  unfold div in Hr.
  destruct (negb _ && _); [discriminate|]. injection Hr as <-.
  do 3 f_equal.
  destruct cp, (purchase_price details); reflexivity.
Qed.

(** C8: for a holding whose price [cp] is available (and whose quantity
    converts to the float [qf], with a divisor that does not raise), the
    loop of [view_portfolio] appends one row with
    current value = quantity * current price,
    profit/loss = (current price - purchase price) * quantity and
    percentage = (current price - purchase price) / purchase price * 100,
    each rounded to two decimals, next to the rounded prices.  For ten
    shares bought at 50 and quoted at 55 the displayed row reads 550, 50
    and 10 (whether the price is a [numpy.float64] or a builtin float). *)
Theorem valuation_row_formulas w stock details items data cp qf :
  market w (requests w) stock = Some cp ->
  truthy cp = true ->
  float_of_int (quantity details) = Some qf ->
  div (sub cp (purchase_price details)) (purchase_price details) <> None ->
  let pp := purchase_price details in
  (valuation_rows ((stock, details) :: items) data w =
   valuation_rows items
     (data ++
      [{| Stock := stock;
          Quantity := quantity details;
          Purchase_Price := round2 pp;
          Current_Price := round2 cp;
          Current_Value := round2 (result_of cp cp (qf * value cp)%float);
          Profit_Loss :=
            round2 (result_of cp pp ((value cp - value pp) * qf)%float);
          Profit_Loss_pct :=
            round2 (result_of cp pp
                      ((value cp - value pp) / value pp * 100)%float) |}])
     (fetched stock w)) /\
  trace (snd (view_portfolio (session ten_at_50 (steady all_55) ["no"]))) =
    [Print FetchingData; Request "ACME"; Print PerformanceHeading;
     Print (Table [{| Stock := "ACME"; Quantity := 10;
                      Purchase_Price := PyFloat 50;
                      Current_Price := NpFloat 55;
                      Current_Value := NpFloat 550;
                      Profit_Loss := NpFloat 50;
                      Profit_Loss_pct := NpFloat 10 |}]);
     Print (TotalValue (PyFloat 500)); Ask EXPORT_PROMPT] /\
  trace (snd (view_portfolio (session ten_at_50 (steady all_55_builtin) ["no"]))) =
    [Print FetchingData; Request "ACME"; Print PerformanceHeading;
     Print (Table [{| Stock := "ACME"; Quantity := 10;
                      Purchase_Price := PyFloat 50;
                      Current_Price := PyFloat 55;
                      Current_Value := PyFloat 550;
                      Profit_Loss := PyFloat 50;
                      Profit_Loss_pct := PyFloat 10 |}]);
     Print (TotalValue (PyFloat 500)); Ask EXPORT_PROMPT].
Proof.
  intros Hp Ht Hq Hdiv pp. subst pp.
  split; [|split; vm_compute; reflexivity].
  now apply valuation_rows_priced.
Qed.

Lemma valuation_row_formulas_witness :
  valuation_rows
    [("ACME", {| quantity := 10; purchase_price := PyFloat 50 |})] []
    (session ten_at_50 (steady all_55) ["no"]) =
  valuation_rows []
    [{| Stock := "ACME"; Quantity := 10;
        Purchase_Price := PyFloat 50; Current_Price := NpFloat 55;
        Current_Value := NpFloat 550; Profit_Loss := NpFloat 50;
        Profit_Loss_pct := NpFloat 10 |}]
    (fetched "ACME" (session ten_at_50 (steady all_55) ["no"])).
Proof.
  refine (proj1 (valuation_row_formulas
                   (session ten_at_50 (steady all_55) ["no"]) "ACME"
                   {| quantity := 10; purchase_price := PyFloat 50 |} [] []
                   (NpFloat 55) 10%float eq_refl eq_refl eq_refl _)).
  vm_compute. discriminate.
Defined.

(** C1 (as the program behaves): a holding whose purchase price is zero
    gets no special treatment when its price is available.  Nothing is
    reported (the only new event is the price request).  When an operand
    is a [numpy.float64], as the prices of the service are, the row is
    appended and stays in the table, with a percentage that is infinite or
    NaN; when both are builtin floats the division raises
    [ZeroDivisionError], which nothing catches. *)
Theorem zero_purchase_price_is_not_guarded w stock details items data cp qf :
  (value (purchase_price details) =? 0)%float = true ->
  market w (requests w) stock = Some cp ->
  truthy cp = true ->
  float_of_int (quantity details) = Some qf ->
  trace (fetched stock w) = trace w ++ [Request stock] /\
  (is_numpy cp || is_numpy (purchase_price details) = true ->
   exists row,
     valuation_rows ((stock, details) :: items) data w =
       valuation_rows items (data ++ [row]) (fetched stock w) /\
     Stock row = stock /\
     is_finite (value (Profit_Loss_pct row)) = false /\
     forall data',
       fst (valuation_rows items (data ++ [row]) (fetched stock w)) = Ok data' ->
       In row data') /\
  (is_numpy cp || is_numpy (purchase_price details) = false ->
   valuation_rows ((stock, details) :: items) data w =
     (Raise ZeroDivisionError, fetched stock w)).
Proof.
  intros Hz Hp Ht Hq. split; [|split].
  - now rewrite fetched_trace, Hp.
  - intros Hnp. eexists. split; [|split; [|split]].
    + apply (valuation_rows_priced _ _ _ _ _ _ _ Hp Ht Hq).
      unfold div, sub, result_of. simpl.
      destruct cp, (purchase_price details); simpl in *; discriminate.
    + reflexivity.
    + simpl. unfold result_of. rewrite Hnp. simpl.
      apply unbounded_not_finite, np_round2_unbounded, ratio_by_zero_unbounded; auto.
      unfold truthy in Ht. now destruct (value cp =? 0)%float.
    + intros data' Hrun. eapply valuation_rows_keeps; [exact Hrun|].
      apply in_or_app. right. now left.
  - intros Hnp. simpl. unfold bind at 1.
    rewrite fetch_stock_data_eq, Hp. simpl. rewrite Ht.
    unfold int_mul, mul_int. rewrite Hq. simpl.
    unfold bind at 1. simpl. unfold bind at 1. simpl.
    unfold div, sub, result_of.
    destruct cp, (purchase_price details); simpl in *; try discriminate.
    rewrite Hz. reflexivity.
Qed.

Lemma zero_purchase_price_is_not_guarded_witness :
  trace (fetched "ACME" (session free_share (steady all_55) ["no"])) =
    [Request "ACME"] /\
  valuation_rows [("ACME", {| quantity := 1; purchase_price := PyFloat 0 |})] []
    (session free_share (steady all_55_builtin) ["no"]) =
  (Raise ZeroDivisionError,
   fetched "ACME" (session free_share (steady all_55_builtin) ["no"])).
Proof.
  split.
  - exact (proj1 (zero_purchase_price_is_not_guarded
                    (session free_share (steady all_55) ["no"]) "ACME"
                    {| quantity := 1; purchase_price := PyFloat 0 |} [] []
                    (NpFloat 55) 1%float eq_refl eq_refl eq_refl eq_refl)).
  - exact (proj2 (proj2 (zero_purchase_price_is_not_guarded
                    (session free_share (steady all_55_builtin) ["no"]) "ACME"
                    {| quantity := 1; purchase_price := PyFloat 0 |} [] []
                    (PyFloat 55) 1%float eq_refl eq_refl eq_refl eq_refl))
                 eq_refl).
Defined.

(** C1 fails as stated: a free share quoted at 55 by the service is
    displayed with an infinite percentage and no report, and with a builtin
    float price the division error ends [view_portfolio]. *)
Lemma zero_purchase_price_counterexample :
  view_portfolio (session free_share (steady all_55) ["no"]) =
    (Ok tt,
     {| memory := free_share; market := steady all_55; requests := 1;
        stdin := [];
        trace :=
          [Print FetchingData; Request "ACME"; Print PerformanceHeading;
           Print (Table [{| Stock := "ACME"; Quantity := 1;
                            Purchase_Price := PyFloat 0;
                            Current_Price := NpFloat 55;
                            Current_Value := NpFloat 55;
                            Profit_Loss := NpFloat 55;
                            Profit_Loss_pct := NpFloat infinity |}]);
           Print (TotalValue (PyFloat 0)); Ask EXPORT_PROMPT];
        disk := [] |}) /\
  fst (view_portfolio (session free_share (steady all_55_builtin) ["no"])) =
    Raise ZeroDivisionError.
Proof. split; vm_compute; reflexivity. Qed.

(** ** A price of zero *)

(** C10: a price that compares equal to zero is handled like a failed
    request by every operation.  [add_stock] prints that the fetch failed
    and leaves the portfolio in memory and the disk unchanged, with no
    write; the loop of [update_total_balance] goes on with the same total;
    the loop of [view_portfolio] goes on with the same rows.  These are the
    very steps taken when the service gives no answer at all. *)
Theorem zero_price_is_treated_as_unavailable w stock p :
  market w (requests w) stock = Some p ->
  (value p =? 0)%float = true ->
  (forall symbol n,
     upper symbol = stock ->
     fst (add_stock symbol n w) = Ok tt /\
     memory (snd (add_stock symbol n w)) = memory w /\
     disk (snd (add_stock symbol n w)) = disk w /\
     trace (snd (add_stock symbol n w)) =
       trace w ++ [Request stock; Print (FailedToFetch stock)]) /\
  (forall details items total,
     sum_values ((stock, details) :: items) total w =
     sum_values items total (fetched stock w)) /\
  (forall details items data,
     valuation_rows ((stock, details) :: items) data w =
     valuation_rows items data (fetched stock w)) /\
  (forall w0,
     market w0 (requests w0) stock = None ->
     (forall details items total,
        sum_values ((stock, details) :: items) total w0 =
        sum_values items total (fetched stock w0)) /\
     (forall details items data,
        valuation_rows ((stock, details) :: items) data w0 =
        valuation_rows items data (fetched stock w0))).
Proof.
  intros Hp Hz.
  assert (Hnone : if_truthy (market w (requests w) stock) = None).
  { rewrite Hp. simpl. unfold truthy. now rewrite Hz. }
  split; [|split; [|split]].
  - intros symbol n <-.
    rewrite add_stock_unavailable by exact Hnone.
    simpl. rewrite fetched_trace, Hp, <- app_assoc. auto.
  - intros details items total. simpl. unfold bind at 1.
    now rewrite fetch_stock_data_eq, Hnone.
  - intros details items data. now apply valuation_rows_skip.
  - intros w0 H0. split.
    + intros details items total. simpl. unfold bind at 1.
      now rewrite fetch_stock_data_eq, H0.
    + intros details items data. apply valuation_rows_skip. now rewrite H0.
Qed.

Lemma zero_price_is_treated_as_unavailable_witness :
  fst (add_stock "goog" 4 (session two_holdings (steady all_zero) [])) = Ok tt /\
  memory (snd (add_stock "goog" 4 (session two_holdings (steady all_zero) [])))
    = two_holdings /\
  disk (snd (add_stock "goog" 4 (session two_holdings (steady all_zero) []))) = [] /\
  trace (snd (add_stock "goog" 4 (session two_holdings (steady all_zero) [])))
    = [Request "GOOG"; Print (FailedToFetch "GOOG")].
Proof.
  exact (proj1 (zero_price_is_treated_as_unavailable
                  (session two_holdings (steady all_zero) []) "GOOG" (NpFloat 0)
                  eq_refl eq_refl) "goog" 4%Z eq_refl).
Defined.

(** ** [view_portfolio] *)

Lemma view_nonempty w item items :
  stocks (memory w) = item :: items ->
  exists w1 r,
    valuation_rows (item :: items) []
      {| memory := memory w; market := market w; requests := requests w;
         stdin := stdin w; trace := trace w ++ [Print FetchingData]; disk := disk w |} = (r, w1) /\
    view_portfolio w =
    match r with
    | Raise e => (Raise e, w1)
    | Ok data =>
        match stdin w1 with
        | [] => (Raise EOFError,
                 {| memory := memory w1; market := market w1; requests := requests w1;
                    stdin := [];
                    trace := trace w1 ++ [Print PerformanceHeading; Print (Table data);
                                          Print (TotalValue (round2 (total_balance (memory w1))));
                                          Ask EXPORT_PROMPT];
                    disk := disk w1 |})
        | line :: rest =>
            if String.eqb (lower (strip line)) "yes" then
              (Ok tt,
               {| memory := memory w1; market := market w1; requests := requests w1;
                  stdin := rest;
                  trace := trace w1 ++ [Print PerformanceHeading; Print (Table data);
                                        Print (TotalValue (round2 (total_balance (memory w1))));
                                        Ask EXPORT_PROMPT;
                                        Write EXPORT_FILE (CsvFile data); Print Exported];
                  disk := set EXPORT_FILE (CsvFile data) (disk w1) |})
            else
              (Ok tt,
               {| memory := memory w1; market := market w1; requests := requests w1;
                  stdin := rest;
                  trace := trace w1 ++ [Print PerformanceHeading; Print (Table data);
                                        Print (TotalValue (round2 (total_balance (memory w1))));
                                        Ask EXPORT_PROMPT];
                  disk := disk w1 |})
        end
    end.
Proof.
  intros Hst.
  destruct (valuation_rows (item :: items) [] _) as [r w1] eqn:Hrun.
  exists w1, r. split; [reflexivity|].
  unfold view_portfolio, read_portfolio. unfold bind at 1. rewrite Hst.
  unfold bind at 1. unfold print at 1, emit at 1.
  unfold bind at 1. rewrite Hrun.
  destruct r as [data|e]; [|reflexivity].
  unfold print, emit, input, write_file, bind, ret. simpl.
  destruct (stdin w1) as [|line rest]; simpl.
  - repeat rewrite <- app_assoc. reflexivity.
  - destruct (String.eqb (lower (strip line)) "yes"); simpl;
      repeat rewrite <- app_assoc; reflexivity.
Qed.

(** C9: whatever happens in [view_portfolio] (it may also stop on an
    exception), the portfolio in memory is left as it was and the portfolio
    file keeps its content; none of the new events writes the portfolio
    file; every total that is printed is the rounded balance that was
    already in memory, and it is printed whenever the view of a non-empty
    portfolio completes.  On an empty portfolio the only effect is the
    message that the portfolio is empty: no price request, no prompt, no
    line read, no file written.  Ten shares bought at 50 and now quoted at
    55 are shown with the stored total 500, where a recomputation would
    give 550. *)
Theorem view_portfolio_is_read_only w :
  memory (snd (view_portfolio w)) = memory w /\
  get PORTFOLIO_FILE (disk (snd (view_portfolio w))) = get PORTFOLIO_FILE (disk w) /\
  (exists evs,
     trace (snd (view_portfolio w)) = trace w ++ evs /\
     filter saves evs = [] /\
     (forall t, In (Print (TotalValue t)) evs ->
                t = round2 (total_balance (memory w))) /\
     (stocks (memory w) <> [] ->
      fst (view_portfolio w) = Ok tt ->
      In (Print (TotalValue (round2 (total_balance (memory w))))) evs)) /\
  (stocks (memory w) = [] ->
   view_portfolio w =
   (Ok tt, {| memory := memory w; market := market w; requests := requests w;
              stdin := stdin w; trace := trace w ++ [Print PortfolioEmpty];
              disk := disk w |})) /\
  (In (Print (TotalValue (PyFloat 500)))
      (trace (snd (view_portfolio (session ten_at_50 (steady all_55) ["no"])))) /\
   total_balance
     (memory (snd (update_total_balance (session ten_at_50 (steady all_55) ["no"]))))
   = NpFloat 550).
Proof.
  assert (Hempty : stocks (memory w) = [] ->
    view_portfolio w =
    (Ok tt, {| memory := memory w; market := market w; requests := requests w;
               stdin := stdin w; trace := trace w ++ [Print PortfolioEmpty];
               disk := disk w |})).
  { intros Hst. unfold view_portfolio, read_portfolio, bind. now rewrite Hst. }
  assert (Hex :
    In (Print (TotalValue (PyFloat 500)))
       (trace (snd (view_portfolio (session ten_at_50 (steady all_55) ["no"])))) /\
    total_balance
      (memory (snd (update_total_balance (session ten_at_50 (steady all_55) ["no"]))))
    = NpFloat 550).
  { split; vm_compute; auto 10. }
  split; [|split; [|split; [|split; [exact Hempty | exact Hex]]]];
    clear Hex; destruct (stocks (memory w)) as [|item items] eqn:Hst;
    try (rewrite (Hempty eq_refl); simpl).
  - reflexivity.
  - destruct (view_nonempty w item items Hst) as (w1 & r & Hrun & ->).
    pose proof (valuation_rows_quiet (item :: items) []
                  {| memory := memory w; market := market w;
                     requests := requests w; stdin := stdin w;
                     trace := trace w ++ [Print FetchingData];
                     disk := disk w |}) as Hq.
    rewrite Hrun in Hq. destruct Hq as (Hm & _).
    destruct r as [data|e]; [|exact Hm].
    destruct (stdin w1) as [|line rest];
      [|destruct (String.eqb (lower (strip line)) "yes")]; exact Hm.
  - reflexivity.
  - destruct (view_nonempty w item items Hst) as (w1 & r & Hrun & ->).
    pose proof (valuation_rows_quiet (item :: items) []
                  {| memory := memory w; market := market w;
                     requests := requests w; stdin := stdin w;
                     trace := trace w ++ [Print FetchingData];
                     disk := disk w |}) as Hq.
    rewrite Hrun in Hq. destruct Hq as (_ & Hd & _). simpl in Hd.
    destruct r as [data|e]; [|simpl; now rewrite Hd].
    destruct (stdin w1) as [|line rest];
      [|destruct (String.eqb (lower (strip line)) "yes")]; simpl;
      rewrite ?Hd; auto.
    rewrite get_set_other; [reflexivity|discriminate].
  - exists [Print PortfolioEmpty]. split; [reflexivity|]. split; [reflexivity|].
    split.
    + intros t [H|[]]. discriminate.
    + intros Hne. now contradiction Hne.
  - destruct (view_nonempty w item items Hst) as (w1 & r & Hrun & ->).
    pose proof (valuation_rows_quiet (item :: items) []
                  {| memory := memory w; market := market w;
                     requests := requests w; stdin := stdin w;
                     trace := trace w ++ [Print FetchingData];
                     disk := disk w |}) as Hq.
    rewrite Hrun in Hq. destruct Hq as (Hm & _ & _ & _ & evs & Ht & Hall).
    simpl in Hm, Ht.
    pose proof (lookup_events_no_saves evs Hall) as Hsaves.
    pose proof (fun t => lookup_events_no_total evs t Hall) as Htotal.
    assert (Hin : forall t tail,
              (forall t', In (Print (TotalValue t')) tail ->
                          t' = round2 (total_balance (memory w))) ->
              In (Print (TotalValue t)) (Print FetchingData :: evs ++ tail) ->
              t = round2 (total_balance (memory w))).
    { intros t tail Htail [H|H]; [discriminate|].
      apply in_app_or in H. destruct H as [H|H]; [now apply Htotal in H|auto]. }
    destruct r as [data|e].
    + destruct (stdin w1) as [|line rest];
        [|destruct (String.eqb (lower (strip line)) "yes")]; simpl;
        rewrite Ht, Hm, <- !app_assoc; simpl;
        (eexists; split; [reflexivity|]); (split; [|split]).
      * simpl. now rewrite filter_app, Hsaves.
      * intros t. apply Hin. simpl. intuition congruence.
      * discriminate.
      * simpl. now rewrite filter_app, Hsaves.
      * intros t. apply Hin. simpl. intuition congruence.
      * intros _ _. right. apply in_or_app. right. simpl. auto.
      * simpl. now rewrite filter_app, Hsaves.
      * intros t. apply Hin. simpl. intuition congruence.
      * intros _ _. right. apply in_or_app. right. simpl. auto.
    + simpl. rewrite Ht, <- app_assoc. simpl.
      eexists; split; [reflexivity|]. split; [|split].
      * simpl. exact Hsaves.
      * intros t H. apply (Hin t []); [intros t' []|].
        now rewrite app_nil_r.
      * discriminate.
Qed.

(** ** The menu *)

Lemma bind_ok {A B} (m : M A) (k : A -> M B) w b w' :
  bind m k w = (Ok b, w') ->
  exists a w1, m w = (Ok a, w1) /\ k a w1 = (Ok b, w').
Proof.
  unfold bind. destruct (m w) as [[a|e] w1]; [eauto|discriminate].
Qed.

Lemma print_ok m w r w' : print m w = (r, w') -> stdin w' = stdin w.
Proof. unfold print, emit. now intros [= _ <-]. Qed.

Lemma input_ok prompt w line w' :
  input prompt w = (Ok line, w') -> stdin w = line :: stdin w'.
Proof.
  unfold input, emit, bind. simpl.
  destruct (stdin w) as [|l rest]; [discriminate|].
  now intros [= <- <-].
Qed.

Lemma update_total_balance_stdin w :
  stdin (snd (update_total_balance w)) = stdin w.
Proof.
  unfold update_total_balance, read_portfolio, write_portfolio, bind. simpl.
  destruct (sum_values_quiet (stocks (memory w)) (PyFloat 0) w)
    as (_ & _ & _ & Hi & _).
  destruct (sum_values (stocks (memory w)) (PyFloat 0) w) as [[t|e] w1];
    simpl in *; auto.
Qed.

Lemma recompute_and_save_stdin w :
  stdin (snd (bind update_total_balance (fun _ => save_portfolio) w)) = stdin w.
Proof.
  unfold bind. pose proof (update_total_balance_stdin w) as Hi.
  destruct (update_total_balance w) as [[[]|e] w1]; simpl in *; auto.
Qed.

Lemma add_stock_stdin symbol n w : stdin (snd (add_stock symbol n w)) = stdin w.
Proof.
  destruct (if_truthy (market w (requests w) (upper symbol))) as [price|] eqn:Hp.
  - unfold if_truthy in Hp.
    destruct (market w (requests w) (upper symbol)) as [p|] eqn:Hm; [|discriminate].
    destruct (truthy p) eqn:Ht; [|discriminate].
    rewrite (add_stock_available _ _ n _ Hm Ht).
    now rewrite recompute_and_save_stdin.
  - now rewrite (add_stock_unavailable _ _ n Hp).
Qed.

Lemma remove_stock_stdin symbol w : stdin (snd (remove_stock symbol w)) = stdin w.
Proof.
  destruct (mem (upper symbol) (stocks (memory w))) eqn:Hin.
  - rewrite (remove_stock_present _ _ Hin). now rewrite recompute_and_save_stdin.
  - now rewrite (remove_stock_absent _ _ Hin).
Qed.

Lemma view_portfolio_stdin w :
  List.length (stdin (snd (view_portfolio w))) <= List.length (stdin w).
Proof.
  destruct (stocks (memory w)) as [|item items] eqn:Hst.
  - unfold view_portfolio, read_portfolio, bind. rewrite Hst. simpl. lia.
  - destruct (view_nonempty w item items Hst) as (w1 & r & Hrun & ->).
    pose proof (valuation_rows_quiet (item :: items) []
                  {| memory := memory w; market := market w;
                     requests := requests w; stdin := stdin w;
                     trace := trace w ++ [Print FetchingData];
                     disk := disk w |}) as Hq.
    rewrite Hrun in Hq. destruct Hq as (_ & _ & _ & Hi & _). simpl in Hi.
    destruct r as [data|e]; [|simpl; rewrite Hi; lia].
    rewrite <- Hi.
    destruct (stdin w1) as [|line rest];
      [|destruct (String.eqb (lower (strip line)) "yes")]; simpl; lia.
Qed.

(** A pass that asks for another one has read at least one line. *)
Lemma menu_pass_reads w w' :
  menu_pass w = (Ok true, w') ->
  List.length (stdin w') < List.length (stdin w).
Proof.
  unfold menu_pass. intros H.
  apply bind_ok in H. destruct H as ([] & w1 & Hprint & H).
  apply print_ok in Hprint.
  apply bind_ok in H. destruct H as (choice & w2 & Hchoice & H).
  apply input_ok in Hchoice. rewrite <- Hprint, Hchoice. simpl.
  destruct (String.eqb (strip choice) "1").
  { apply bind_ok in H. destruct H as (symbol & w3 & Hsym & H).
    apply input_ok in Hsym.
    apply bind_ok in H. destruct H as (text & w4 & Htext & H).
    apply input_ok in Htext. rewrite Hsym, Htext. simpl.
    destruct (int_of_string text) as [q|].
    - apply bind_ok in H. destruct H as ([] & w5 & Hadd & H).
      injection H as <-.
      pose proof (add_stock_stdin (upper (strip symbol)) q w4) as Hi.
      rewrite Hadd in Hi. simpl in Hi. rewrite Hi. lia.
    - apply bind_ok in H. destruct H as ([] & w5 & Hp & H).
      injection H as <-. apply print_ok in Hp. rewrite Hp. lia. }
  destruct (String.eqb (strip choice) "2").
  { apply bind_ok in H. destruct H as (symbol & w3 & Hsym & H).
    apply input_ok in Hsym.
    apply bind_ok in H. destruct H as ([] & w4 & Hrem & H).
    injection H as <-.
    pose proof (remove_stock_stdin (upper (strip symbol)) w3) as Hi.
    rewrite Hrem in Hi. simpl in Hi. rewrite Hsym, Hi. simpl. lia. }
  destruct (String.eqb (strip choice) "3").
  { apply bind_ok in H. destruct H as ([] & w3 & Hview & H).
    injection H as <-.
    pose proof (view_portfolio_stdin w2) as Hi.
    rewrite Hview in Hi. simpl in Hi. lia. }
  destruct (String.eqb (strip choice) "4").
  { apply bind_ok in H. destruct H as ([] & w3 & _ & H). discriminate. }
  apply bind_ok in H. destruct H as ([] & w3 & Hp & H).
  injection H as <-. apply print_ok in Hp. rewrite Hp. lia.
Qed.

(** The loop of [main] ends: with more passes allowed than there are lines
    to read, it leaves through option 4 or through an exception, never for
    want of passes. *)
Lemma main_loop_enough fuel : forall w,
  List.length (stdin w) < fuel -> fst (main_loop fuel w) <> Ok None.
Proof.
  induction fuel as [|fuel IH]; intros w Hlen; [lia|].
  simpl. unfold bind.
  destruct (menu_pass w) as [[[|]|e] w'] eqn:Hpass; simpl; try discriminate.
  apply IH. apply menu_pass_reads in Hpass. lia.
Qed.

Lemma main_ends w : fst (main w) <> Ok None.
Proof.
  unfold main, bind, write_portfolio.
  destruct (load_portfolio w) as [[p|e] w1]; [|simpl; discriminate].
  apply main_loop_enough. simpl. lia.
Qed.

Lemma input_line prompt w line rest :
  stdin w = line :: rest ->
  input prompt w =
  (Ok line, {| memory := memory w; market := market w; requests := requests w;
               stdin := rest; trace := trace w ++ [Ask prompt]; disk := disk w |}).
Proof.
  intros Hin. unfold input, emit, bind. simpl. now rewrite Hin.
Qed.

(** C3 (as the program behaves): on option 1 the shell reads the symbol
    and the quantity text; when [int] parses the text, [add_stock] is
    called with the upper-cased symbol and exactly the parsed integer,
    and when it does not, "Invalid input" is printed and nothing else
    happens (no request, portfolio and disk unchanged).  The sign of the
    integer is not looked at: "-5" and "0" are parsed and passed on. *)
Theorem shell_checks_only_integer_syntax w choice symbol text rest :
  stdin w = choice :: symbol :: text :: rest ->
  strip choice = "1" ->
  (forall q,
     int_of_string text = Some q ->
     menu_pass w =
     bind (add_stock (upper (strip symbol)) q) (fun _ => ret true)
       {| memory := memory w; market := market w; requests := requests w;
          stdin := rest;
          trace := trace w ++ [Print Menu; Ask "Choose an option: ";
                               Ask "Enter the stock symbol (e.g., AAPL, MSFT): ";
                               Ask "Enter the quantity: "];
          disk := disk w |}) /\
  (int_of_string text = None ->
     menu_pass w =
     (Ok true,
      {| memory := memory w; market := market w; requests := requests w;
         stdin := rest;
         trace := trace w ++ [Print Menu; Ask "Choose an option: ";
                              Ask "Enter the stock symbol (e.g., AAPL, MSFT): ";
                              Ask "Enter the quantity: "; Print InvalidInput];
         disk := disk w |})) /\
  int_of_string "-5" = Some (-5)%Z /\
  int_of_string "0" = Some 0%Z.
Proof.
  intros Hin Hchoice.
  assert (Hpass : menu_pass w =
    match int_of_string text with
    | Some q =>
        bind (add_stock (upper (strip symbol)) q) (fun _ => ret true)
          {| memory := memory w; market := market w; requests := requests w;
             stdin := rest;
             trace := trace w ++ [Print Menu; Ask "Choose an option: ";
                                  Ask "Enter the stock symbol (e.g., AAPL, MSFT): ";
                                  Ask "Enter the quantity: "];
             disk := disk w |}
    | None =>
        (Ok true,
         {| memory := memory w; market := market w; requests := requests w;
            stdin := rest;
            trace := trace w ++ [Print Menu; Ask "Choose an option: ";
                                 Ask "Enter the stock symbol (e.g., AAPL, MSFT): ";
                                 Ask "Enter the quantity: "; Print InvalidInput];
            disk := disk w |})
    end).
  { unfold menu_pass. unfold bind at 1. unfold print at 1, emit at 1.
    cbv beta iota.
    unfold bind at 1. erewrite input_line by (simpl; exact Hin).
    cbv beta iota. rewrite Hchoice.
    change (String.eqb "1" "1") with true. cbv iota.
    unfold bind at 1. erewrite input_line by reflexivity. cbv beta iota.
    unfold bind at 1. erewrite input_line by reflexivity. cbv beta iota. simpl.
    repeat rewrite <- app_assoc. simpl.
    destruct (int_of_string text); [reflexivity|].
    unfold bind, print, emit, ret. simpl.
    repeat rewrite <- app_assoc. reflexivity. }
  rewrite Hpass. repeat split.
  - now intros q ->.
  - now intros ->.
Qed.

Lemma shell_checks_only_integer_syntax_witness :
  menu_pass (session empty_portfolio (steady all_55) ["1"; "acme"; "five"]) =
  (Ok true,
   {| memory := empty_portfolio; market := steady all_55; requests := 0;
      stdin := [];
      trace := [Print Menu; Ask "Choose an option: ";
                Ask "Enter the stock symbol (e.g., AAPL, MSFT): ";
                Ask "Enter the quantity: "; Print InvalidInput];
      disk := [] |}).
Proof.
  exact (proj1 (proj2 (shell_checks_only_integer_syntax
                         (session empty_portfolio (steady all_55)
                                  ["1"; "acme"; "five"])
                         "1" "acme" "five" [] eq_refl eq_refl))
               eq_refl).
Defined.

(** C3 fails as stated: typing -5 (or 0) as the quantity creates a holding
    of -5 (or 0) shares. *)
Lemma negative_quantity_counterexample :
  (fst (menu_pass (session empty_portfolio (steady all_55) ["1"; "acme"; "-5"]))
     = Ok true /\
   stocks (memory (snd (menu_pass
                          (session empty_portfolio (steady all_55)
                                   ["1"; "acme"; "-5"])))) =
     [("ACME", {| quantity := -5; purchase_price := NpFloat 55 |})]) /\
  stocks (memory (snd (menu_pass
                         (session empty_portfolio (steady all_55)
                                  ["1"; "acme"; "0"])))) =
    [("ACME", {| quantity := 0; purchase_price := NpFloat 55 |})].
Proof. repeat split; vm_compute; reflexivity. Qed.

(** * Further properties *)

(** ** Symbols and their case *)

Lemma upper_char_idempotent c : upper_char (upper_char c) = upper_char c.
Proof.
  destruct c as [[|] [|] [|] [|] [|] [|] [|] [|]]; reflexivity.
Qed.

Lemma upper_idempotent s : upper (upper s) = upper s.
Proof.
  induction s as [|c s IH]; simpl; [reflexivity|].
  unfold upper in *. simpl. now rewrite upper_char_idempotent, IH.
Qed.

Lemma del_set_new (d : dict Holding) k v :
  get k d = None -> del k (set k v d) = d.
Proof.
  induction d as [|[k' v'] d IH]; simpl.
  - now rewrite String.eqb_refl.
  - destruct (String.eqb k k') eqn:E; [discriminate|].
    intros Hget. simpl. rewrite E. now rewrite IH.
Qed.

Lemma mem_set (d : dict Holding) k v : mem k (set k v d) = true.
Proof. unfold mem. now rewrite get_set_same. Qed.

Lemma stocks_after_remove w symbol :
  stocks (memory (snd (remove_stock symbol w))) =
  if mem (upper symbol) (stocks (memory w))
  then del (upper symbol) (stocks (memory w))
  else stocks (memory w).
Proof.
  destruct (mem (upper symbol) (stocks (memory w))) eqn:Hin.
  - rewrite (remove_stock_present _ _ Hin).
    set (w1 := {| memory := _ |}).
    unfold bind. destruct (update_total_balance_frame w1) as (Hs & _).
    destruct (update_total_balance w1) as [[[]|e] w3]; simpl in *; auto.
  - now rewrite (remove_stock_absent _ _ Hin).
Qed.

Lemma add_stock_completes w symbol n price :
  market w (requests w) (upper symbol) = Some price ->
  truthy price = true ->
  in_range (stocks (memory (snd (add_stock symbol n w)))) ->
  fst (add_stock symbol n w) = Ok tt.
Proof.
  intros Hp Ht. rewrite (stocks_after_add _ _ n _ Hp Ht).
  rewrite (add_stock_available _ _ n _ Hp Ht).
  set (w1 := {| memory := _ |}). intros Hrange.
  destruct (in_range_sum _ (market w) (S (requests w)) (PyFloat 0) Hrange)
    as (t & Hsum).
  destruct (recompute_and_save w1 t Hsum) as (w2 & Hrun & _).
  now rewrite Hrun.
Qed.

Lemma remove_stock_completes w symbol :
  in_range (stocks (memory (snd (remove_stock symbol w)))) ->
  fst (remove_stock symbol w) = Ok tt.
Proof.
  rewrite stocks_after_remove.
  destruct (mem (upper symbol) (stocks (memory w))) eqn:Hin.
  - rewrite (remove_stock_present _ _ Hin).
    set (w1 := {| memory := _ |}). intros Hrange.
    destruct (in_range_sum _ (market w) (requests w) (PyFloat 0) Hrange)
      as (t & Hsum).
    destruct (recompute_and_save w1 t Hsum) as (w2 & Hrun & _).
    now rewrite Hrun.
  - now rewrite (remove_stock_absent _ _ Hin).
Qed.

(** X1: a purchase of a symbol that was not held is undone by removing it,
    under whatever spelling of the symbol: after [add_stock] with an
    available price and [remove_stock] of a symbol with the same upper-case
    form, the holdings are exactly those before the purchase, in the same
    order; and both operations complete when the quantities involved are
    within the float range. *)
Theorem remove_undoes_add w bought sold n price :
  upper bought = upper sold ->
  get (upper bought) (stocks (memory w)) = None ->
  market w (requests w) (upper bought) = Some price ->
  truthy price = true ->
  stocks (memory (snd (remove_stock sold (snd (add_stock bought n w))))) =
    stocks (memory w) /\
  (in_range (stocks (memory (snd (add_stock bought n w)))) ->
   fst (add_stock bought n w) = Ok tt /\
   fst (remove_stock sold (snd (add_stock bought n w))) = Ok tt).
Proof.
  intros Hcase Hnew Hp Ht.
  assert (Hback :
    stocks (memory (snd (remove_stock sold (snd (add_stock bought n w))))) =
    stocks (memory w)).
  { rewrite stocks_after_remove, (stocks_after_add _ _ n _ Hp Ht), <- Hcase.
    rewrite mem_set. now apply del_set_new. }
  split; [exact Hback|].
  intros Hrange. split; [now apply (add_stock_completes _ _ _ price)|].
  apply remove_stock_completes. rewrite Hback.
  rewrite (stocks_after_add _ _ n _ Hp Ht), Hnew in Hrange. simpl in Hrange.
  clear - Hrange Hnew.
  induction (stocks (memory w)) as [|[k v] d IH]; [constructor|].
  simpl in Hrange, Hnew.
  destruct (String.eqb (upper bought) k); [discriminate|].
  inversion Hrange; subst. constructor; auto.
  now apply IH.
Qed.

Lemma remove_undoes_add_witness :
  stocks (memory (snd (remove_stock "Goog"
                         (snd (add_stock "goog" 4
                                 (session two_holdings (steady all_55) [])))))) =
  stocks two_holdings.
Proof.
  exact (proj1 (remove_undoes_add
                  (session two_holdings (steady all_55) []) "goog" "Goog" 4
                  (NpFloat 55) eq_refl eq_refl eq_refl eq_refl)).
Defined.

(** ** The keys of the holdings *)

Lemma stocks_after_add_any w symbol n :
  stocks (memory (snd (add_stock symbol n w))) =
  match if_truthy (market w (requests w) (upper symbol)) with
  | Some price =>
      set (upper symbol) (merged (get (upper symbol) (stocks (memory w))) n price)
          (stocks (memory w))
  | None => stocks (memory w)
  end.
Proof.
  destruct (if_truthy (market w (requests w) (upper symbol))) as [price|] eqn:Hp.
  - unfold if_truthy in Hp.
    destruct (market w (requests w) (upper symbol)) as [p|] eqn:Hm; [|discriminate].
    destruct (truthy p) eqn:Ht; [|discriminate].
    injection Hp as <-. now apply stocks_after_add.
  - now rewrite (add_stock_unavailable _ _ n Hp).
Qed.

Lemma upper_keys_set d k v : upper k = k -> upper_keys d -> upper_keys (set k v d).
Proof.
  unfold upper_keys. rewrite !Forall_forall. intros Hk Hd k' Hin.
  apply keys_set_incl in Hin. destruct Hin as [->|Hin]; auto.
Qed.

Lemma upper_keys_del d k : upper_keys d -> upper_keys (del k d).
Proof.
  unfold upper_keys. rewrite !Forall_forall. intros Hd k' Hin.
  apply keys_del_incl in Hin. auto.
Qed.

(** X2: the operations keep the holdings well keyed.  If no symbol occurs
    twice and every symbol is in upper case, the same holds after
    [add_stock] and after [remove_stock], for every symbol, quantity and
    answer of the service, and also when the operation stops on an
    exception. *)
Theorem operations_keep_keys w symbol n :
  wf (stocks (memory w)) ->
  upper_keys (stocks (memory w)) ->
  (wf (stocks (memory (snd (add_stock symbol n w)))) /\
   upper_keys (stocks (memory (snd (add_stock symbol n w))))) /\
  (wf (stocks (memory (snd (remove_stock symbol w)))) /\
   upper_keys (stocks (memory (snd (remove_stock symbol w))))).
Proof.
  intros Hwf Hup. split.
  - rewrite stocks_after_add_any.
    destruct (if_truthy (market w (requests w) (upper symbol))); [|auto].
    split; [now apply wf_set|].
    apply upper_keys_set; auto. apply upper_idempotent.
  - rewrite stocks_after_remove.
    destruct (mem (upper symbol) (stocks (memory w))); [|auto].
    split; [now apply wf_del | now apply upper_keys_del].
Qed.

Lemma operations_keep_keys_witness :
  wf (stocks (memory (snd (add_stock "goog" 4
                             (session two_holdings (steady all_55) []))))) /\
  upper_keys (stocks (memory (snd (add_stock "goog" 4
                                     (session two_holdings (steady all_55) []))))).
Proof.
  refine (proj1 (operations_keep_keys
                   (session two_holdings (steady all_55) []) "goog" 4 _ _)).
  - repeat constructor; simpl; intuition discriminate.
  - repeat constructor.
Defined.

(** ** Memory and file agree *)














(** ** The loop of [main] *)

Lemma main_loop_fuel fuel1 : forall fuel2 w,
  List.length (stdin w) < fuel1 ->
  List.length (stdin w) < fuel2 ->
  main_loop fuel1 w = main_loop fuel2 w.
Proof.
  induction fuel1 as [|fuel1 IH]; intros [|fuel2] w H1 H2; try lia.
  simpl. unfold bind.
  destruct (menu_pass w) as [[[|]|e] w'] eqn:Hpass; try reflexivity.
  apply menu_pass_reads in Hpass. apply IH; lia.
Qed.

(** X4: the menu loop ends.  A pass that asks for another pass has read at
    least one line of input, so with one pass more than there are lines the
    loop always leaves through option 4 or through an exception, and
    allowing more passes than that changes nothing in the outcome or in the
    final state. *)
Theorem main_loop_terminates w :
  (forall w', menu_pass w = (Ok true, w') ->
              List.length (stdin w') < List.length (stdin w)) /\
  fst (main_loop (S (List.length (stdin w))) w) <> Ok None /\
  (forall fuel, List.length (stdin w) < fuel ->
                main_loop fuel w = main_loop (S (List.length (stdin w))) w) /\
  fst (main w) <> Ok None.
Proof.
  split; [intros w'; apply menu_pass_reads|].
  split; [apply main_loop_enough; lia|].
  split; [intros fuel Hfuel; apply main_loop_fuel; lia|].
  apply main_ends.
Qed.





Lemma main_loop_terminates_witness :
  List.length
    (stdin (snd (menu_pass (session empty_portfolio (steady all_55) ["9"; "4"]))))
  < 2.
Proof.
  refine (proj1 (main_loop_terminates
                   (session empty_portfolio (steady all_55) ["9"; "4"])) _ _).
  vm_compute. reflexivity.
Defined.

(** ** What [view_portfolio] shows and exports *)

Lemma valuation_rows_ok items : forall data w data' w',
  valuation_rows items data w = (Ok data', w') ->
  map (fun r => (Stock r, Quantity r)) data' =
    map (fun r => (Stock r, Quantity r)) data ++
    priced (market w) (requests w) items /\
  w' = polled items w.
Proof.
  induction items as [|[stock details] items IH]; intros data w data' w'; simpl.
  - intros [= <- <-]. now rewrite app_nil_r.
  - unfold bind at 1. rewrite fetch_stock_data_eq.
    destruct (fetched_frame stock w) as (_ & _ & _ & Hk & Hr).
    destruct (if_truthy (market w (requests w) stock)) as [p|].
    + unfold bind, or_raise.
      destruct (int_mul (quantity details) p); simpl; [|discriminate].
      destruct (mul_int (sub p (purchase_price details)) (quantity details));
        simpl; [|discriminate].
      destruct (div (sub p (purchase_price details)) (purchase_price details));
        simpl; [|discriminate].
      intros H. apply IH in H. destruct H as (Hrows & ->).
      rewrite Hrows, Hk, Hr, map_app, <- app_assoc. simpl. auto.
    + intros H. apply IH in H. destruct H as (Hrows & ->).
      now rewrite Hrows, Hk, Hr.
Qed.

Lemma tables_app evs1 evs2 : tables (evs1 ++ evs2) = tables evs1 ++ tables evs2.
Proof.
  induction evs1 as [|[[]| | |] evs1 IH]; simpl; auto.
  now rewrite IH.
Qed.

Lemma lookup_events_no_table evs : Forall lookup_event evs -> tables evs = [].
Proof.
  induction 1 as [|e evs He _ IH]; simpl; auto.
  destruct e as [[]| | |]; simpl in *; auto; contradiction.
Qed.

Lemma requested_app evs1 evs2 :
  requested (evs1 ++ evs2) = requested evs1 ++ requested evs2.
Proof.
  induction evs1 as [|[| | |] evs1 IH]; simpl; auto.
  now rewrite IH.
Qed.

Lemma polled_events items : forall w,
  exists evs,
    trace (polled items w) = trace w ++ evs /\
    Forall lookup_event evs /\
    requested evs = keys items.
Proof.
  induction items as [|[stock details] items IH]; intros w; simpl.
  - exists []. now rewrite app_nil_r.
  - destruct (IH (fetched stock w)) as (evs & Ht & Hall & Hreq).
    rewrite Ht, fetched_trace, <- app_assoc.
    eexists. split; [reflexivity|]. split.
    + destruct (market w (requests w) stock); simpl; repeat constructor; auto.
    + simpl. destruct (market w (requests w) stock); simpl; now rewrite Hreq.
Qed.

Lemma view_completes w w' :
  stocks (memory w) <> [] ->
  view_portfolio w = (Ok tt, w') ->
  exists data line rest evs,
    stdin w = line :: rest /\
    stdin w' = rest /\
    Forall lookup_event evs /\
    requested evs = keys (stocks (memory w)) /\
    map (fun r => (Stock r, Quantity r)) data =
      priced (market w) (requests w) (stocks (memory w)) /\
    trace w' =
      trace w ++ Print FetchingData :: evs ++
        [Print PerformanceHeading; Print (Table data);
         Print (TotalValue (round2 (total_balance (memory w))));
         Ask EXPORT_PROMPT] ++
        (if says_yes line
         then [Write EXPORT_FILE (CsvFile data); Print Exported] else []) /\
    disk w' =
      if says_yes line then set EXPORT_FILE (CsvFile data) (disk w) else disk w.
Proof.
  intros Hne Hview.
  destruct (stocks (memory w)) as [|item items] eqn:Hst; [congruence|].
  destruct (view_nonempty w item items Hst) as (w1 & r & Hrun & Heq).
  rewrite Hview in Heq.
  destruct r as [data|e]; [|discriminate].
  apply valuation_rows_ok in Hrun. destruct Hrun as (Hrows & Hw1).
  simpl in Hrows.
  set (w0 := {| memory := memory w; market := market w;
                requests := requests w; stdin := stdin w;
                trace := trace w ++ [Print FetchingData];
                disk := disk w |}) in *.
  destruct (polled_frame (item :: items) w0) as (Hm & Hd & Hi & _ & _).
  destruct (polled_events (item :: items) w0) as (evs & Ht & Hall & Hreq).
  rewrite <- Hw1 in Hm, Hd, Hi, Ht. simpl in Hm, Hd, Hi, Ht.
  unfold says_yes.
  destruct (stdin w1) as [|line rest]; [discriminate|].
  exists data, line, rest, evs.
  destruct (String.eqb (lower (strip line)) "yes");
    injection Heq as ->; simpl; rewrite Ht, Hm, Hd, <- !app_assoc; simpl;
    repeat split; auto.
Qed.

(** X6: a view that completes shows exactly the holdings whose price is
    available.  On a non-empty portfolio one price is requested per
    holding, in the order of the portfolio; exactly one table is printed,
    and its rows are, in that order, the symbols and quantities of the
    holdings whose request gave a usable (truthy) price; the other
    holdings are left out of the table. *)
Theorem view_shows_priced_holdings w :
  stocks (memory w) <> [] ->
  fst (view_portfolio w) = Ok tt ->
  exists data evs,
    trace (snd (view_portfolio w)) = trace w ++ evs /\
    requested evs = keys (stocks (memory w)) /\
    tables evs = [data] /\
    map (fun r => (Stock r, Quantity r)) data =
      priced (market w) (requests w) (stocks (memory w)).
Proof.
  intros Hne Hok.
  destruct (view_portfolio w) as [r w'] eqn:Hview. simpl in Hok. subst r.
  apply view_completes in Hview; auto.
  destruct Hview
    as (data & line & rest & evs & _ & _ & Hall & Hreq & Hrows & Ht & _).
  exists data. eexists. split; [exact Ht|].
  split; [|split; [|exact Hrows]].
  - change (requested (Print FetchingData :: ?l)) with (requested l).
    rewrite !requested_app, Hreq.
    destruct (says_yes line); simpl; now rewrite app_nil_r.
  - change (tables (Print FetchingData :: ?l)) with (tables l).
    rewrite !tables_app, (lookup_events_no_table _ Hall).
    destruct (says_yes line); reflexivity.
Qed.

Lemma view_shows_priced_holdings_witness :
  exists data evs,
    trace (snd (view_portfolio (session two_holdings (steady only_msft) ["no"]))) =
      [] ++ evs /\
    requested evs = ["AAPL"; "MSFT"] /\
    tables evs = [data] /\
    map (fun r => (Stock r, Quantity r)) data = [("MSFT", 3%Z)].
Proof.
  refine (view_shows_priced_holdings
            (session two_holdings (steady only_msft) ["no"]) _ _).
  - discriminate.
  - vm_compute. reflexivity.
Defined.

(** X7: the export writes what was shown, and only on a yes.  When a view
    of a non-empty portfolio completes, it has read one line as the answer
    to the export prompt.  If the answer, stripped and lower-cased, is
    "yes", the export file is (over)written with exactly the rows of the
    table that was printed, and that is the only write; for any other
    answer the disk is unchanged and nothing is written. *)
Theorem export_writes_displayed_rows w :
  stocks (memory w) <> [] ->
  fst (view_portfolio w) = Ok tt ->
  exists data evs line rest,
    stdin w = line :: rest /\
    stdin (snd (view_portfolio w)) = rest /\
    trace (snd (view_portfolio w)) = trace w ++ evs /\
    tables evs = [data] /\
    (says_yes line = true ->
     disk (snd (view_portfolio w)) = set EXPORT_FILE (CsvFile data) (disk w) /\
     filter writes evs = [Write EXPORT_FILE (CsvFile data)]) /\
    (says_yes line = false ->
     disk (snd (view_portfolio w)) = disk w /\
     filter writes evs = []).
Proof.
  intros Hne Hok.
  destruct (view_portfolio w) as [r w'] eqn:Hview. simpl in Hok. subst r.
  apply view_completes in Hview; auto.
  destruct Hview
    as (data & line & rest & evs & Hin & Hrest & Hall & _ & _ & Ht & Hd).
  exists data. eexists. exists line, rest.
  split; [exact Hin|]. split; [exact Hrest|]. split; [exact Ht|].
  simpl snd. rewrite Hd.
  change (tables (Print FetchingData :: ?l)) with (tables l).
  change (filter writes (Print FetchingData :: ?l)) with (filter writes l).
  rewrite !tables_app, !filter_app, (lookup_events_no_table _ Hall),
    (lookup_events_no_write _ Hall).
  destruct (says_yes line); simpl; repeat split; auto; discriminate.
Qed.

Lemma export_writes_displayed_rows_witness :
  exists data evs line rest,
    stdin (session ten_at_50 (steady all_55) [" Yes "]) = line :: rest /\
    stdin (snd (view_portfolio (session ten_at_50 (steady all_55) [" Yes "]))) = rest /\
    trace (snd (view_portfolio (session ten_at_50 (steady all_55) [" Yes "]))) =
      [] ++ evs /\
    tables evs = [data] /\
    (says_yes line = true ->
     disk (snd (view_portfolio (session ten_at_50 (steady all_55) [" Yes "]))) =
       set EXPORT_FILE (CsvFile data) [] /\
     filter writes evs = [Write EXPORT_FILE (CsvFile data)]) /\
    (says_yes line = false ->
     disk (snd (view_portfolio (session ten_at_50 (steady all_55) [" Yes "]))) = [] /\
     filter writes evs = []).
Proof.
  refine (export_writes_displayed_rows
            (session ten_at_50 (steady all_55) [" Yes "]) _ _).
  - discriminate.
  - vm_compute. reflexivity.
Defined.

(** ** The price requests of a change *)

Lemma recompute_and_save_requests w t :
  sum_from (PyFloat 0)
    (priced_values (quotes (market w) (requests w) (stocks (memory w)))) = Some t ->
  exists w' evs,
    bind update_total_balance (fun _ => save_portfolio) w = (Ok tt, w') /\
    trace w' = trace w ++ evs /\
    requested evs = keys (stocks (memory w)) /\
    requests w' = List.length (stocks (memory w)) + requests w.
Proof.
  intros Hsum.
  unfold update_total_balance, read_portfolio, write_portfolio.
  unfold bind at 1. unfold bind at 1. unfold bind at 1.
  rewrite (sum_values_ok _ _ _ _ Hsum).
  unfold bind. rewrite save_portfolio_eq. simpl.
  destruct (polled_frame (stocks (memory w)) w) as (_ & _ & _ & _ & Hr).
  destruct (polled_events (stocks (memory w)) w) as (evs & Ht & _ & Hreq).
  eexists. exists (evs ++ [Write PORTFOLIO_FILE
                             (JsonFile (json_dump
                                {| stocks := stocks (memory (polled (stocks (memory w)) w));
                                   total_balance := round2 t |}))]).
  split; [reflexivity|]. simpl.
  rewrite Ht, Hr, requested_app, Hreq, <- app_assoc. simpl.
  now rewrite app_nil_r.
Qed.

(** X8: what a change costs in price requests.  An [add_stock] whose price
    is available asks the service for the symbol and then once for every
    holding of the portfolio as it is after the purchase, in order; a
    [remove_stock] of a held symbol asks once for every remaining holding,
    in order, and not for the removed one (quantities within the float
    range, so that the operations complete). *)
Theorem requests_of_a_change w symbol n :
  (forall price,
     market w (requests w) (upper symbol) = Some price ->
     truthy price = true ->
     in_range (stocks (memory (snd (add_stock symbol n w)))) ->
     exists evs,
       trace (snd (add_stock symbol n w)) = trace w ++ evs /\
       requested evs =
         upper symbol :: keys (stocks (memory (snd (add_stock symbol n w)))) /\
       requests (snd (add_stock symbol n w)) =
         S (List.length (stocks (memory (snd (add_stock symbol n w)))))
         + requests w) /\
  (mem (upper symbol) (stocks (memory w)) = true ->
   in_range (stocks (memory (snd (remove_stock symbol w)))) ->
   exists evs,
     trace (snd (remove_stock symbol w)) = trace w ++ evs /\
     requested evs = keys (del (upper symbol) (stocks (memory w))) /\
     requests (snd (remove_stock symbol w)) =
       List.length (del (upper symbol) (stocks (memory w))) + requests w).
Proof.
  split.
  - intros price Hp Ht.
    rewrite (stocks_after_add _ _ n _ Hp Ht).
    rewrite (add_stock_available _ _ n _ Hp Ht).
    set (w1 := {| memory := _ |}). intros Hrange.
    destruct (in_range_sum _ (market w) (S (requests w)) (PyFloat 0) Hrange)
      as (t & Hsum).
    destruct (recompute_and_save_requests w1 t Hsum)
      as (w2 & evs & Hrun & Htr & Hreq & Hcount).
    rewrite Hrun. simpl. rewrite Htr, Hcount. simpl.
    eexists. rewrite <- app_assoc. split; [reflexivity|]. split; [|lia].
    simpl. rewrite !requested_app, Hreq.
    destruct (get (upper symbol) (stocks (memory w))); reflexivity.
  - intros Hin. rewrite stocks_after_remove, Hin.
    rewrite (remove_stock_present _ _ Hin).
    set (w1 := {| memory := _ |}). intros Hrange.
    destruct (in_range_sum _ (market w) (requests w) (PyFloat 0) Hrange)
      as (t & Hsum).
    destruct (recompute_and_save_requests w1 t Hsum)
      as (w2 & evs & Hrun & Htr & Hreq & Hcount).
    rewrite Hrun. simpl. rewrite Htr, Hcount. simpl.
    eexists. rewrite <- app_assoc. split; [reflexivity|]. split; [|reflexivity].
    simpl. exact Hreq.
Qed.

Lemma requests_of_a_change_witness :
  exists evs,
    trace (snd (add_stock "goog" 4 (session two_holdings (steady all_55) []))) =
      [] ++ evs /\
    requested evs =
      "GOOG" :: keys (stocks (memory (snd (add_stock "goog" 4
                                            (session two_holdings (steady all_55) []))))) /\
    requests (snd (add_stock "goog" 4 (session two_holdings (steady all_55) []))) =
      S (List.length
           (stocks (memory (snd (add_stock "goog" 4
                                   (session two_holdings (steady all_55) []))))))
      + 0.
Proof.
  refine (proj1 (requests_of_a_change
                   (session two_holdings (steady all_55) []) "goog" 4)
                (NpFloat 55) eq_refl eq_refl _).
  vm_compute. repeat constructor; discriminate.
Defined.

(** ** A price that is not a number *)

Section NaNFacts.
Local Open Scope float_scope.

Lemma is_nan_spec x : is_nan x = true <-> Prim2SF x = S754_nan.
Proof.
  unfold is_nan. rewrite FloatAxioms.eqb_spec.
  destruct (Prim2SF x) as [s|[|]| |[|] m e]; simpl;
    try (split; [discriminate|discriminate]); try tauto;
    unfold SFeqb, SFcompare; rewrite Z.compare_refl, Pos.compare_cont_refl;
    simpl; split; discriminate.
Qed.

Lemma nan_truthy p : is_nan (value p) = true -> truthy p = true.
Proof.
  rewrite is_nan_spec. unfold truthy. rewrite eqb_zero. now intros ->.
Qed.

Lemma nan_mul_r a b : is_nan b = true -> is_nan (a * b) = true.
Proof.
  rewrite !is_nan_spec, mul_spec. intros ->. unfold SF64mul.
  now destruct (Prim2SF a).
Qed.

Lemma nan_add_l a b : is_nan a = true -> is_nan (a + b) = true.
Proof.
  rewrite !is_nan_spec, add_spec. now intros ->.
Qed.

Lemma nan_add_r a b : is_nan b = true -> is_nan (a + b) = true.
Proof.
  rewrite !is_nan_spec, add_spec. intros ->. unfold SF64add.
  now destruct (Prim2SF a).
Qed.

Lemma nan_round2 n : is_nan (value n) = true -> is_nan (value (round2 n)) = true.
Proof.
  destruct n as [x|x]; simpl; rewrite !is_nan_spec; intros Hx.
  - unfold py_round2. now rewrite Hx.
  - unfold np_round2.
    assert (Hm : Prim2SF (x * 100) = S754_nan).
    { rewrite mul_spec, Hx. reflexivity. }
    unfold rint. rewrite Hm, div_spec, Hm. reflexivity.
Qed.

End NaNFacts.

Lemma sum_from_nan vs : forall total t,
  is_nan (value total) = true ->
  sum_from total vs = Some t ->
  is_nan (value t) = true.
Proof.
  induction vs as [|[v|] vs IH]; intros total t Hnan; simpl.
  - now intros [= <-].
  - apply IH. unfold add, result_of.
    destruct (is_numpy total || is_numpy v); simpl; now apply nan_add_l.
  - discriminate.
Qed.

Lemma sum_with_nan_quote items : forall service n total t details p,
  In (details, Some p) (quotes service n items) ->
  is_nan (value p) = true ->
  sum_from total (priced_values (quotes service n items)) = Some t ->
  is_nan (value t) = true.
Proof.
  induction items as [|[stock d] items IH];
    intros service n total t details p Hin Hnan; simpl in *; [contradiction|].
  destruct Hin as [Heq|Hin].
  - injection Heq as -> ->. simpl.
    unfold int_mul. destruct (float_of_int (quantity details)) as [x|];
      [|discriminate].
    simpl. apply sum_from_nan.
    unfold add, result_of.
    destruct (is_numpy p || is_numpy p), (is_numpy total || _); simpl;
      apply nan_add_r, nan_mul_r, Hnan.
  - destruct (if_truthy (service n stock)) as [p0|]; simpl.
    + destruct (int_mul (quantity d) p0); [|discriminate].
      now apply (IH _ _ _ _ details p).
    + now apply (IH _ _ _ _ details p).
Qed.

(** X9: a price that is NaN is not caught by the availability test.  NaN
    is truthy, so [add_stock] records a new holding with NaN as its
    purchase price instead of reporting a failed fetch; and whenever the
    price of some holding is NaN during [update_total_balance], the stored
    balance is NaN, whatever the other holdings are worth. *)
Theorem nan_price_is_accepted w :
  (forall symbol n p,
     market w (requests w) (upper symbol) = Some p ->
     is_nan (value p) = true ->
     get (upper symbol) (stocks (memory w)) = None ->
     get (upper symbol) (stocks (memory (snd (add_stock symbol n w)))) =
       Some {| quantity := n; purchase_price := p |}) /\
  (forall details p,
     in_range (stocks (memory w)) ->
     In (details, Some p)
        (quotes (market w) (requests w) (stocks (memory w))) ->
     is_nan (value p) = true ->
     fst (update_total_balance w) = Ok tt /\
     is_nan (value (total_balance (memory (snd (update_total_balance w))))) = true).
Proof.
  split.
  - intros symbol n p Hp Hnan Hnew.
    rewrite (stocks_after_add _ _ n _ Hp (nan_truthy _ Hnan)), Hnew.
    apply get_set_same.
  - intros details p Hrange Hin Hnan.
    destruct (in_range_sum _ (market w) (requests w) (PyFloat 0) Hrange) as (t & Hsum).
    destruct (update_total_balance_ok w t Hsum) as (w' & Hrun & Hm & _).
    rewrite Hrun. simpl. rewrite Hm. simpl. split; [reflexivity|].
    apply nan_round2. eapply sum_with_nan_quote; eauto.
Qed.

Lemma nan_price_is_accepted_witness :
  fst (update_total_balance (session two_holdings (steady all_nan) [])) = Ok tt /\
  is_nan (value (total_balance
                   (memory (snd (update_total_balance
                                   (session two_holdings (steady all_nan) []))))))
  = true.
Proof.
  refine (proj2 (nan_price_is_accepted (session two_holdings (steady all_nan) []))
                {| quantity := 2; purchase_price := PyFloat 100 |} (NpFloat nan)
                _ _ eq_refl).
  - repeat constructor; simpl; discriminate.
  - left. reflexivity.
Defined.

(** ** Edge cases *)

(** X10: removing the only holding brings the portfolio back to the empty
    document.  Whatever the stored balance was, after [remove_stock] of
    the single symbol held the portfolio in memory has no holdings and a
    balance of exactly 0.0, this document is written to the portfolio
    file, and the service is not asked at all. *)
Theorem removing_the_only_holding w symbol details :
  stocks (memory w) = [(upper symbol, details)] ->
  remove_stock symbol w =
  (Ok tt,
   {| memory := {| stocks := []; total_balance := PyFloat 0 |};
      market := market w; requests := requests w; stdin := stdin w;
      trace := trace w ++
               [Print (Removed (upper symbol));
                Write PORTFOLIO_FILE
                  (JsonFile {| doc_stocks := []; doc_total_balance := 0 |})];
      disk := set PORTFOLIO_FILE
                (JsonFile {| doc_stocks := []; doc_total_balance := 0 |})
                (disk w) |}).
Proof.
  intros Hst.
  assert (Hin : mem (upper symbol) (stocks (memory w)) = true).
  { rewrite Hst. unfold mem. simpl. now rewrite String.eqb_refl. }
  rewrite (remove_stock_present _ _ Hin), Hst. simpl.
  rewrite String.eqb_refl.
  unfold update_total_balance, save_portfolio, read_portfolio, write_portfolio,
    write_file, emit, bind, ret. simpl.
  rewrite <- app_assoc. reflexivity.
Qed.

Lemma removing_the_only_holding_witness :
  fst (remove_stock "acme" (session ten_at_50 (steady all_55) [])) = Ok tt /\
  memory (snd (remove_stock "acme" (session ten_at_50 (steady all_55) []))) =
    empty_portfolio.
Proof.
  rewrite (removing_the_only_holding
             (session ten_at_50 (steady all_55) []) "acme"
             {| quantity := 10; purchase_price := PyFloat 50 |} eq_refl).
  split; reflexivity.
Defined.

(** X11: what the menu does with input it cannot use.  When the input is
    exhausted, the pass stops with [EOFError] right after the prompt.  A
    choice that, stripped, is none of "1", "2", "3", "4" only prints the
    invalid-choice message and asks for another pass: no price is
    requested, and memory and disk are untouched. *)
Theorem menu_rejects_unknown_choice w :
  (stdin w = [] ->
   menu_pass w =
   (Raise EOFError,
    {| memory := memory w; market := market w; requests := requests w;
       stdin := [];
       trace := trace w ++ [Print Menu; Ask "Choose an option: "];
       disk := disk w |})) /\
  (forall choice rest,
     stdin w = choice :: rest ->
     strip choice <> "1" -> strip choice <> "2" ->
     strip choice <> "3" -> strip choice <> "4" ->
     menu_pass w =
     (Ok true,
      {| memory := memory w; market := market w; requests := requests w;
         stdin := rest;
         trace := trace w ++ [Print Menu; Ask "Choose an option: ";
                              Print InvalidChoice];
         disk := disk w |})).
Proof.
  split.
  - intros Hin. unfold menu_pass, print, input, emit, bind. simpl.
    rewrite Hin, <- app_assoc. reflexivity.
  - intros choice rest Hin H1 H2 H3 H4.
    apply String.eqb_neq in H1, H2, H3, H4.
    unfold menu_pass. unfold bind at 1. unfold print at 1, emit at 1.
    cbv beta iota.
    unfold bind at 1. erewrite input_line by (simpl; exact Hin).
    cbv beta iota. rewrite H1, H2, H3, H4.
    unfold bind, print, emit, ret. simpl.
    repeat rewrite <- app_assoc. reflexivity.
Qed.

Lemma menu_rejects_unknown_choice_witness :
  menu_pass (session two_holdings (steady all_55) ["5"; "4"]) =
  (Ok true,
   {| memory := two_holdings; market := steady all_55; requests := 0;
      stdin := ["4"];
      trace := [Print Menu; Ask "Choose an option: "; Print InvalidChoice];
      disk := [] |}).
Proof.
  refine (proj2 (menu_rejects_unknown_choice
                   (session two_holdings (steady all_55) ["5"; "4"]))
                "5" ["4"] eq_refl _ _ _ _); discriminate.
Defined.

(** ** Recomputing at unchanged prices *)

Lemma quotes_timeless service items : forall n m,
  timeless service -> quotes service n items = quotes service m items.
Proof.
  induction items as [|[stock details] items IH]; intros n m Hs; simpl; auto.
  now rewrite (Hs n m stock), (IH (S n) (S m) Hs).
Qed.

(** X12: recomputing the balance is idempotent while prices stand still.
    If the answers of the service depend on the symbol only, a second
    [update_total_balance] right after the first leaves the portfolio in
    memory exactly as the first left it (quantities within the float
    range). *)
Theorem update_total_balance_idempotent w :
  timeless (market w) ->
  in_range (stocks (memory w)) ->
  fst (update_total_balance (snd (update_total_balance w))) = Ok tt /\
  memory (snd (update_total_balance (snd (update_total_balance w)))) =
  memory (snd (update_total_balance w)).
Proof.
  intros Hs Hrange.
  destruct (in_range_sum _ (market w) (requests w) (PyFloat 0) Hrange) as (t & Hsum).
  destruct (update_total_balance_ok w t Hsum)
    as (w1 & Hrun & Hm & _ & _ & Hk & _).
  rewrite Hrun. simpl.
  assert (Hsum1 : sum_from (PyFloat 0)
            (priced_values (quotes (market w1) (requests w1) (stocks (memory w1)))) =
            Some t).
  { rewrite Hk, Hm. simpl.
    now rewrite (quotes_timeless _ _ (requests w1) (requests w) Hs). }
  destruct (update_total_balance_ok w1 t Hsum1) as (w2 & Hrun2 & Hm2 & _).
  rewrite Hrun2. simpl. rewrite Hm2, Hm. auto.
Qed.

Lemma update_total_balance_idempotent_witness :
  fst (update_total_balance
         (snd (update_total_balance (session two_holdings (steady only_msft) []))))
    = Ok tt /\
  memory (snd (update_total_balance
                 (snd (update_total_balance
                         (session two_holdings (steady only_msft) []))))) =
  memory (snd (update_total_balance (session two_holdings (steady only_msft) []))).
Proof.
  refine (update_total_balance_idempotent
            (session two_holdings (steady only_msft) []) _ _).
  - intros n m symbol. reflexivity.
  - repeat constructor; simpl; discriminate.
Defined.

(** ** Sessions and repeated purchases *)



Lemma set_set (d : dict Holding) k v1 v2 : set k v2 (set k v1 d) = set k v2 d.
Proof.
  induction d as [|[k' v'] d IH]; simpl.
  - now rewrite String.eqb_refl.
  - destruct (String.eqb k k') eqn:E; simpl; rewrite E; [reflexivity|].
    now rewrite IH.
Qed.

(** X14: two purchases of a symbol amount to one.  When both price
    requests succeed, buying [n1] and then [n2] shares of a symbol leaves
    the same holdings (quantities, purchase prices and order) as buying
    [n1 + n2] shares at once: the quantity is the sum and the purchase
    price is the one of the first purchase, or the one already recorded;
    the price of the second purchase is not used. *)
Theorem two_purchases_add_up w symbol n1 n2 p1 p2 :
  market w (requests w) (upper symbol) = Some p1 ->
  truthy p1 = true ->
  market (snd (add_stock symbol n1 w)) (requests (snd (add_stock symbol n1 w)))
         (upper symbol) = Some p2 ->
  truthy p2 = true ->
  stocks (memory (snd (add_stock symbol n2 (snd (add_stock symbol n1 w))))) =
  stocks (memory (snd (add_stock symbol (n1 + n2) w))).
Proof.
  intros Hp1 Ht1 Hp2 Ht2.
  rewrite (stocks_after_add _ _ n2 _ Hp2 Ht2).
  rewrite !(stocks_after_add _ _ _ _ Hp1 Ht1).
  rewrite get_set_same, set_set. f_equal.
  destruct (get (upper symbol) (stocks (memory w))) as [[q pp]|]; simpl;
    unfold increase; simpl; f_equal; lia.
Qed.

Lemma two_purchases_add_up_witness :
  stocks (memory (snd (add_stock "AAPL" 3
                         (snd (add_stock "AAPL" 5
                                 (session empty_portfolio aapl_rising [])))))) =
  stocks (memory (snd (add_stock "AAPL" (5 + 3)
                         (session empty_portfolio aapl_rising [])))).
Proof.
  exact (two_purchases_add_up (session empty_portfolio aapl_rising [])
           "AAPL" 5 3 (NpFloat 100) (NpFloat 110)
           eq_refl eq_refl eq_refl eq_refl).
Defined.

(** ** A quantity beyond the float range *)

Lemma set_new (d : dict Holding) k v : get k d = None -> set k v d = d ++ [(k, v)].
Proof.
  induction d as [|[k' v'] d IH]; simpl; [reflexivity|].
  destruct (String.eqb k k'); [discriminate|].
  intros Hget. now rewrite IH.
Qed.

Lemma sum_values_overflow d : forall total w k h p,
  in_range d ->
  if_truthy (market w (List.length d + requests w) k) = Some p ->
  float_of_int (quantity h) = None ->
  fst (sum_values (d ++ [(k, h)]) total w) = Raise OverflowError.
Proof.
  induction d as [|[s x] d IH]; intros total w k h p Hrange Hp Hq; simpl.
  - unfold bind at 1. rewrite fetch_stock_data_eq. simpl in Hp. rewrite Hp.
    unfold int_mul. rewrite Hq. reflexivity.
  - inversion Hrange as [|? ? Hx Hrange']; subst. simpl in Hx.
    unfold bind at 1. rewrite fetch_stock_data_eq.
    destruct (fetched_frame s w) as (_ & _ & _ & Hk & Hr).
    assert (Hp' : if_truthy (market (fetched s w)
                               (List.length d + requests (fetched s w)) k) = Some p).
    { rewrite Hk, Hr. simpl in Hp.
      now replace (List.length d + S (requests w))
        with (S (List.length d + requests w)) by lia. }
    destruct (if_truthy (market w (requests w) s)) as [p0|].
    + unfold int_mul. destruct (float_of_int (quantity x)); [|congruence].
      simpl. unfold bind at 1. simpl. now apply (IH _ _ _ _ p).
    + now apply (IH _ _ _ _ p).
Qed.

(** X15: a quantity too large for a float ends the program with the
    purchase half done.  When a new symbol is bought with a quantity that
    does not convert to a float, the price being available during the
    purchase and during the recomputation, [add_stock] records the
    holding in memory and then stops with [OverflowError]: the stored
    balance is the old one, the disk is untouched and nothing is written,
    so memory and file no longer agree. *)
Theorem oversized_quantity_raises w symbol n price p :
  get (upper symbol) (stocks (memory w)) = None ->
  in_range (stocks (memory w)) ->
  float_of_int n = None ->
  market w (requests w) (upper symbol) = Some price ->
  truthy price = true ->
  if_truthy (market w (S (List.length (stocks (memory w)) + requests w))
                    (upper symbol)) = Some p ->
  fst (add_stock symbol n w) = Raise OverflowError /\
  memory (snd (add_stock symbol n w)) =
    {| stocks := stocks (memory w) ++
                 [(upper symbol, {| quantity := n; purchase_price := price |})];
       total_balance := total_balance (memory w) |} /\
  disk (snd (add_stock symbol n w)) = disk w /\
  filter writes (trace (snd (add_stock symbol n w))) = filter writes (trace w).
Proof.
  intros Hnew Hrange Hn Hp Ht Hp2.
  rewrite (add_stock_available _ _ n _ Hp Ht), Hnew. simpl merged.
  rewrite (set_new _ _ _ Hnew).
  set (w1 := {| memory := _ |}).
  assert (Hraise : fst (sum_values (stocks (memory w1)) (PyFloat 0) w1) =
                   Raise OverflowError).
  { apply (sum_values_overflow _ _ _ _ _ p); auto.
    simpl. now replace (List.length (stocks (memory w)) + S (requests w))
      with (S (List.length (stocks (memory w)) + requests w)) by lia. }
  destruct (sum_values_quiet (stocks (memory w1)) (PyFloat 0) w1)
    as (Hm & Hd & _ & _ & evs & Htr & Hall).
  destruct (sum_values (stocks (memory w1)) (PyFloat 0) w1) as [[t|e] w2] eqn:Hrun;
    simpl in Hraise; [discriminate|]. injection Hraise as ->.
  assert (Hrun' : bind update_total_balance (fun _ => save_portfolio) w1 =
                  (Raise OverflowError, w2)).
  { unfold update_total_balance, read_portfolio, write_portfolio, bind.
    cbv beta. now rewrite Hrun. }
  rewrite Hrun'. simpl in *. rewrite Hm, Hd, Htr. repeat split.
  rewrite !filter_app, (lookup_events_no_write _ Hall). simpl.
  now rewrite !app_nil_r.
Qed.

Lemma oversized_quantity_raises_witness :
  fst (add_stock "acme" (10 ^ 400)
         (session empty_portfolio (steady all_55) [])) = Raise OverflowError /\
  disk (snd (add_stock "acme" (10 ^ 400)
               (session empty_portfolio (steady all_55) []))) = [].
Proof.
  destruct (oversized_quantity_raises
              (session empty_portfolio (steady all_55) []) "acme" (10 ^ 400)
              (NpFloat 55) (NpFloat 55)
              eq_refl (Forall_nil _) eq_refl eq_refl eq_refl eq_refl)
    as (H1 & _ & H3 & _).
  exact (conj H1 H3).
Defined.
